(** * resume-adapter: the resume assembly of [models/resume.py]

    A shallow embedding of [Resume.generate_resume] and of the two matching
    helpers it calls, [_match_developer_background] and
    [_match_project_to_requirements], with the dataclasses of
    [models/developer.py], [models/work_experience.py] and
    [models/job_offer.py] they read.

    The two language-model chains are outside the repository.  They are
    taken as an interface ([Platform]): a call receives the dictionary the
    source builds, may change the state of the outside world, and either
    returns a validated response or raises.  The Python functions become
    computations in a state-and-exception monad over that world.

    Around the assembly, the development follows the resume to
    [Resume.generate_markdown] and to the statistics of [pages/3_Resume.py],
    and covers the comma-separated fields of the two form pages and
    [WorkExperience.from_text]. *)

From Stdlib Require Import ZArith Lia DecimalString Ascii.
From stdpp Require Import base list strings gmap.
Import ListNotations.
Open Scope string_scope.
Open Scope list_scope.

(** ** Python values used by the module *)

(** [datetime.date]: the three integer attributes.  Python keeps
    [1 <= year <= 9999]; nothing below relies on it. *)
Module Date.
Record t := { year : Z; month : Z; day : Z }.
End Date.

(** [str(n)] for an [int]. *)
Definition str_of_int (z : Z) : string := NilZero.string_of_int (Z.to_int z).

(** ['%0<width>d' % z] for [0 <= z], the only case [date.isoformat] meets. *)
Definition zero_padded (width : nat) (z : Z) : string :=
  let digits := str_of_int z in
  String.concat "" (replicate (width - String.length digits) "0") +:+ digits.

(** [date.isoformat()]: [YYYY-MM-DD]. *)
Definition isoformat (d : Date.t) : string :=
  zero_padded 4 (Date.year d) +:+ "-" +:+ zero_padded 2 (Date.month d)
    +:+ "-" +:+ zero_padded 2 (Date.day d).

(** [x in xs] for a list of [str]: the first element equal to [x] decides. *)
Fixpoint list_contains (x : string) (xs : list string) : bool :=
  match xs with
  | [] => false
  | y :: ys => if String.eqb x y then true else list_contains x ys
  end.

(** [sub in s] for two [str]: [sub] starts at some position of [s]. *)
Fixpoint str_contains (sub s : string) : bool :=
  if String.prefix sub s then true
  else match s with
       | EmptyString => false
       | String _ rest => str_contains sub rest
       end.

(** [any(f(x) for x in xs)]. *)
Fixpoint any {A : Type} (f : A → bool) (xs : list A) : bool :=
  match xs with
  | [] => false
  | x :: rest => if f x then true else any f rest
  end.

(** [sum(f(x) for x in xs)]: starts at [0] and adds from the left. *)
Definition sum_of {A : Type} (f : A → Z) (xs : list A) : Z :=
  fold_left (λ acc x, acc + f x)%Z xs 0%Z.

(** [sep.join(parts)]. *)
Definition join (sep : string) (parts : list string) : string :=
  String.concat sep parts.

(** ** The dataclasses *)

Module ContactInfo.
Record t := { email : string; phone : string; address : string }.
End ContactInfo.

Module Skill.
Record t := { name : string; level : string }.
End Skill.

Module Education.
Record t := {
  institution_name : string;
  degree : string;
  field_of_study : string;
  start_date : Date.t;
  end_date : Date.t
}.
End Education.

Module Certification.
Record t := {
  name : string;
  issuing_organization : string;
  issue_date : Date.t;
  expiration_date : Date.t
}.
End Certification.

Module Language.
Record t := { name : string; proficiency : string }.
End Language.

Module Achievement.
Record t := { title : string; description : string }.
End Achievement.

Module JobPreferences.
Record t := {
  job_title : string;
  location : string;
  employment_type : string;
  remote_work : bool;
  salary_expectation : string;
  other_conditions : list string
}.
End JobPreferences.

Module STARDescription.
Record t := { situation : string; task : string; action : string; result : string }.
End STARDescription.

Module Project.
Record t := {
  project_name : string;
  description : STARDescription.t;
  technologies : list string;
  achievements : list string
}.
End Project.

Module Mission.
Record t := {
  job_title : string;
  company_name : string;
  start_date : Date.t;
  end_date : Date.t;
  overall_summary : string
}.
End Mission.

Module WorkExperience.
Record t := { mission : Mission.t; projects : list Project.t }.
End WorkExperience.

Module ExperienceRequirement.
Record t := { years_of_experience : Z; relevant_experiences : list string }.
End ExperienceRequirement.

Module JobRequirements.
Record t := {
  hard_skills : list string;
  soft_skills : list string;
  education_level : string;
  certifications : list string;
  experience : ExperienceRequirement.t;
  languages : list string;
  other_conditions : list string
}.
End JobRequirements.

Module JobOffer.
Record t := {
  job_title : string;
  company_name : string;
  location : string;
  employment_type : string;
  description : string;
  requirements : JobRequirements.t;
  perks : list string;
  application_deadline : Date.t
}.
End JobOffer.

Module Developer.
Record t := {
  name : string;
  contact_info : ContactInfo.t;
  linkedin_url : string;
  github_url : string;
  website_url : string;
  professional_summary : string;
  technical_skills : list Skill.t;
  soft_skills : list string;
  work_experiences : list WorkExperience.t;
  education : list Education.t;
  certifications : list Certification.t;
  languages : list Language.t;
  achievements : list Achievement.t;
  hobbies : list string;
  job_preferences : JobPreferences.t
}.
End Developer.

(** ** What goes to and comes back from the chains *)

(** [project_dict] of [_match_project_to_requirements]. *)
Module ProjectDict.
Record description_t := { situation : string; task : string; action : string; result : string }.
Record t := {
  name : string;
  description : description_t;
  technologies : list string;
  achievements : list string
}.
End ProjectDict.

(** The ["experience"] entry of both requirement dictionaries. *)
Module ExperienceDict.
Record t := { years : Z; types : list string }.
End ExperienceDict.

(** [requirements_dict] of [_match_project_to_requirements]. *)
Module ProjectRequirementsDict.
Record t := {
  hard_skills : list string;
  soft_skills : list string;
  experience : ExperienceDict.t
}.
End ProjectRequirementsDict.

(** [background_dict] of [_match_developer_background]. *)
Module BackgroundDict.
Record skill_t := { name : string; proficiency : string }.
Record education_t := {
  degree : string;
  field : string;
  institution : string;
  graduation_date : string
}.
Record work_experience_t := {
  title : string;
  company : string;
  duration : string;
  summary : string
}.
Record t := {
  skills : list skill_t;
  education : list education_t;
  work_experience : list work_experience_t
}.
End BackgroundDict.

(** [requirements_dict] of [_match_developer_background]. *)
Module BackgroundRequirementsDict.
Record t := {
  hard_skills : list string;
  soft_skills : list string;
  education_level : string;
  experience : ExperienceDict.t
}.
End BackgroundRequirementsDict.

Module ProjectMatchResponse.
Record t := { is_match : bool; matching_reason : string }.
End ProjectMatchResponse.

Module BackgroundMatchResponse.
Record t := {
  relevant_skills : list string;
  relevant_education : list string;
  match_explanation : string
}.
End BackgroundMatchResponse.

(** ** The outside world and the monad *)

(** A Python exception, by its message. *)
Definition Exn := string.

Inductive outcome (A : Type) : Type :=
| Returned (a : A)
| Raised (e : Exn).
Arguments Returned {A} a.
Arguments Raised {A} e.

(** What the module takes from outside the repository.

    [project_chain_invoke] stands for [_create_project_matcher()] followed by
    [chain.invoke] on the two dictionaries, [background_chain_invoke] for
    [_create_background_matcher()] followed by [chain.invoke].  The reply may
    depend on the state of the world, which the call may change, so two
    calls on the same dictionaries may answer differently; a call that
    fails raises.  [str_lower] is [str.lower]. *)
Class Platform := {
  World : Type;
  project_chain_invoke :
    ProjectDict.t → ProjectRequirementsDict.t → World →
    World * outcome ProjectMatchResponse.t;
  background_chain_invoke :
    BackgroundDict.t → BackgroundRequirementsDict.t → World →
    World * outcome BackgroundMatchResponse.t;
  str_lower : string → string
}.

(** A computation: from the world before to the world after and either a
    value or the exception that ended it. *)
Definition M `{Platform} (A : Type) : Type := World → World * outcome A.

Global Instance M_ret `{Platform} : MRet M := λ A a w, (w, Returned a).

Global Instance M_bind `{Platform} : MBind M := λ A B k m w,
  match m w with
  | (w', Returned a) => k a w'
  | (w', Raised e) => (w', Raised e)
  end.

(** ** [Resume] *)

(** [relevant_education] is annotated [List[Education]] in the source; the
    value [generate_resume] stores there is the second component returned
    by [_match_developer_background], a list of [str]. *)
Module Resume.
Record t := {
  developer : Developer.t;
  job_offer : JobOffer.t;
  professional_summary : string;
  relevant_skills : list Skill.t;
  relevant_experience : list WorkExperience.t;
  relevant_certifications : list Certification.t;
  relevant_education : list string;
  relevant_languages : list Language.t;
  highlighted_achievements : list Achievement.t
}.
End Resume.

(** The truth value of a list: non-empty. *)
Definition truthy {A : Type} (xs : list A) : bool :=
  match xs with
  | [] => false
  | _ :: _ => true
  end.

Section Matching.
Context `{Platform}.

Definition _match_project_to_requirements
    (project : Project.t) (requirements : JobRequirements.t) : M (bool * string) :=
  let project_dict := {|
    ProjectDict.name := Project.project_name project;
    ProjectDict.description := {|
      ProjectDict.situation := STARDescription.situation (Project.description project);
      ProjectDict.task := STARDescription.task (Project.description project);
      ProjectDict.action := STARDescription.action (Project.description project);
      ProjectDict.result := STARDescription.result (Project.description project)
    |};
    ProjectDict.technologies := Project.technologies project;
    ProjectDict.achievements := Project.achievements project
  |} in
  let requirements_dict := {|
    ProjectRequirementsDict.hard_skills := JobRequirements.hard_skills requirements;
    ProjectRequirementsDict.soft_skills := JobRequirements.soft_skills requirements;
    ProjectRequirementsDict.experience := {|
      ExperienceDict.years :=
        ExperienceRequirement.years_of_experience (JobRequirements.experience requirements);
      ExperienceDict.types :=
        ExperienceRequirement.relevant_experiences (JobRequirements.experience requirements)
    |}
  |} in
  response ← project_chain_invoke project_dict requirements_dict;
  mret (ProjectMatchResponse.is_match response,
        ProjectMatchResponse.matching_reason response).

Definition _match_developer_background
    (developer : Developer.t) (experience_req : ExperienceRequirement.t)
    (requirements : JobRequirements.t) : M (list Skill.t * list string) :=
  let background_dict := {|
    BackgroundDict.skills :=
      map (λ skill, {|
             BackgroundDict.name := Skill.name skill;
             BackgroundDict.proficiency := Skill.level skill |})
          (Developer.technical_skills developer);
    BackgroundDict.education :=
      map (λ edu, {|
             BackgroundDict.degree := Education.degree edu;
             BackgroundDict.field := Education.field_of_study edu;
             BackgroundDict.institution := Education.institution_name edu;
             BackgroundDict.graduation_date := isoformat (Education.end_date edu) |})
          (Developer.education developer);
    BackgroundDict.work_experience :=
      map (λ exp, {|
             BackgroundDict.title := Mission.job_title (WorkExperience.mission exp);
             BackgroundDict.company := Mission.company_name (WorkExperience.mission exp);
             BackgroundDict.duration :=
               isoformat (Mission.start_date (WorkExperience.mission exp))
                 +:+ " to " +:+ isoformat (Mission.end_date (WorkExperience.mission exp));
             BackgroundDict.summary := Mission.overall_summary (WorkExperience.mission exp) |})
          (Developer.work_experiences developer)
  |} in
  let requirements_dict := {|
    BackgroundRequirementsDict.hard_skills := JobRequirements.hard_skills requirements;
    BackgroundRequirementsDict.soft_skills := JobRequirements.soft_skills requirements;
    BackgroundRequirementsDict.education_level := JobRequirements.education_level requirements;
    BackgroundRequirementsDict.experience := {|
      ExperienceDict.years := ExperienceRequirement.years_of_experience experience_req;
      ExperienceDict.types := ExperienceRequirement.relevant_experiences experience_req
    |}
  |} in
  response ← background_chain_invoke background_dict requirements_dict;
  let relevant_skills :=
    List.filter
      (λ skill, list_contains (Skill.name skill)
                  (BackgroundMatchResponse.relevant_skills response))
      (Developer.technical_skills developer) in
  let relevant_education :=
    map (λ edu, edu) (BackgroundMatchResponse.relevant_education response) in
  mret (relevant_skills, relevant_education).

(** The inner loop of [generate_resume], [for project in exp.projects], on
    the two lists it appends to. *)
Fixpoint for_project_in
    (exp : WorkExperience.t) (requirements : JobRequirements.t)
    (projects : list Project.t)
    (relevant_projects : list (Project.t * string))
    (relevant_work_experiences : list WorkExperience.t)
    : M (list (Project.t * string) * list WorkExperience.t) :=
  match projects with
  | [] => mret (relevant_projects, relevant_work_experiences)
  | project :: rest =>
      '(is_match, matching_reasons) ← _match_project_to_requirements project requirements;
      if is_match : bool then
        for_project_in exp requirements rest
          (relevant_projects ++ [(project, matching_reasons)])
          (relevant_work_experiences ++ [exp])
      else
        for_project_in exp requirements rest relevant_projects relevant_work_experiences
  end.

(** The outer loop, [for exp in developer.work_experiences]. *)
Fixpoint for_exp_in
    (requirements : JobRequirements.t) (work_experiences : list WorkExperience.t)
    (relevant_projects : list (Project.t * string))
    (relevant_work_experiences : list WorkExperience.t)
    : M (list (Project.t * string) * list WorkExperience.t) :=
  match work_experiences with
  | [] => mret (relevant_projects, relevant_work_experiences)
  | exp :: rest =>
      '(relevant_projects, relevant_work_experiences) ←
        for_project_in exp requirements (WorkExperience.projects exp)
          relevant_projects relevant_work_experiences;
      for_exp_in requirements rest relevant_projects relevant_work_experiences
  end.

(** The last loop, [for achievement in developer.achievements]. *)
Fixpoint for_achievement_in
    (requirements : JobRequirements.t) (achievements : list Achievement.t)
    (relevant_achievements : list Achievement.t) : list Achievement.t :=
  match achievements with
  | [] => relevant_achievements
  | achievement :: rest =>
      let achievement_text :=
        str_lower (Achievement.title achievement +:+ " "
                     +:+ Achievement.description achievement) in
      let is_relevant :=
        any (λ skill, str_contains (str_lower skill) achievement_text)
            (JobRequirements.hard_skills requirements
               ++ JobRequirements.soft_skills requirements) in
      if is_relevant then
        for_achievement_in requirements rest (relevant_achievements ++ [achievement])
      else
        for_achievement_in requirements rest relevant_achievements
  end.

Definition generate_resume (developer : Developer.t) (job_offer : JobOffer.t)
    : M Resume.t :=
  '(relevant_skills, relevant_education) ←
    _match_developer_background developer
      (JobRequirements.experience (JobOffer.requirements job_offer))
      (JobOffer.requirements job_offer);
  '(relevant_projects, relevant_work_experiences) ←
    for_exp_in (JobOffer.requirements job_offer)
      (Developer.work_experiences developer) [] [];
  let summary_parts := [] in
  let summary_parts :=
    if truthy relevant_skills then
      let skills_str := join ", " (map Skill.name (take 3 relevant_skills)) in
      summary_parts ++ ["Experienced in " +:+ skills_str]
    else summary_parts in
  let summary_parts :=
    match relevant_education with
    | edu :: _ => summary_parts ++ ["with " +:+ edu]
    | [] => summary_parts
    end in
  let years_exp :=
    sum_of (λ exp, Date.year (Mission.end_date (WorkExperience.mission exp))
                   - Date.year (Mission.start_date (WorkExperience.mission exp)))%Z
           (Developer.work_experiences developer) in
  let summary_parts :=
    summary_parts ++ ["and " +:+ str_of_int years_exp +:+ "+ years of relevant experience"] in
  let summary_parts :=
    summary_parts ++ ["seeking " +:+ JobOffer.job_title job_offer +:+ " position at "
                        +:+ JobOffer.company_name job_offer] in
  let professional_summary := join " " summary_parts in
  let relevant_certifications :=
    List.filter
      (λ cert, list_contains (Certification.name cert)
                 (JobRequirements.certifications (JobOffer.requirements job_offer)))
      (Developer.certifications developer) in
  let relevant_languages :=
    List.filter
      (λ lang, list_contains (Language.name lang)
                 (JobRequirements.languages (JobOffer.requirements job_offer)))
      (Developer.languages developer) in
  let relevant_achievements :=
    for_achievement_in (JobOffer.requirements job_offer)
      (Developer.achievements developer) [] in
  mret {|
    Resume.developer := developer;
    Resume.job_offer := job_offer;
    Resume.professional_summary := professional_summary;
    Resume.relevant_skills := relevant_skills;
    Resume.relevant_experience := relevant_work_experiences;
    Resume.relevant_certifications := relevant_certifications;
    Resume.relevant_education := relevant_education;
    Resume.relevant_languages := relevant_languages;
    Resume.highlighted_achievements := relevant_achievements
  |}.

End Matching.

(** ** A scripted platform

    For running the functions: the world is the script of replies still to
    come, one for the background chain and a queue for the project chain,
    each call taking the next reply; a project call on an empty queue
    raises.  [str.lower] is taken on ASCII letters. *)

Definition lower_ascii_char (c : Ascii.ascii) : Ascii.ascii :=
  let n := Ascii.nat_of_ascii c in
  if (65 <=? n)%nat && (n <=? 90)%nat then Ascii.ascii_of_nat (n + 32) else c.

Fixpoint lower_ascii (s : string) : string :=
  match s with
  | EmptyString => EmptyString
  | String c rest => String (lower_ascii_char c) (lower_ascii rest)
  end.

Module Script.
Record t := {
  background_reply : outcome BackgroundMatchResponse.t;
  project_replies : list (outcome ProjectMatchResponse.t)
}.
End Script.

Definition scripted : Platform := {|
  World := Script.t;
  project_chain_invoke := λ _ _ w,
    match Script.project_replies w with
    | reply :: rest =>
        ({| Script.background_reply := Script.background_reply w;
            Script.project_replies := rest |}, reply)
    | [] => (w, Raised "no reply from the project chain")
    end;
  background_chain_invoke := λ _ _ w, (w, Script.background_reply w);
  str_lower := lower_ascii
|}.

(** ** The test data of [models/resume.py] *)

Definition date (y m d : Z) : Date.t := {| Date.year := y; Date.month := m; Date.day := d |}.

Definition test_project1 : Project.t := {|
  Project.project_name := "E-commerce Platform Redesign";
  Project.description := {|
    STARDescription.situation := "Legacy e-commerce platform needed modernization";
    STARDescription.task := "Lead developer responsible for frontend redesign";
    STARDescription.action := "Implemented new React.js architecture, introduced TypeScript, and set up automated testing";
    STARDescription.result := "Improved load times by 40%, increased mobile conversion by 25%"
  |};
  Project.technologies := ["React.js"; "TypeScript"; "Jest"; "Redux"; "Node.js"];
  Project.achievements :=
    ["Reduced bundle size by 60%"; "Implemented CI/CD pipeline"; "Led team of 3 developers"]
|}.

Definition test_project2 : Project.t := {|
  Project.project_name := "Cloud Infrastructure Migration";
  Project.description := {|
    STARDescription.situation := "Company needed to migrate on-premise services to cloud infrastructure";
    STARDescription.task := "Technical lead for the AWS migration project";
    STARDescription.action := "Architected and implemented cloud-native solutions using AWS services, Python for automation, and established CI/CD pipelines";
    STARDescription.result := "Successfully migrated 15 services with zero downtime, reduced infrastructure costs by 35%"
  |};
  Project.technologies := ["Python"; "AWS"; "Docker"; "Terraform"; "GitHub Actions"];
  Project.achievements :=
    ["Implemented infrastructure as code using Terraform";
     "Created automated deployment pipelines";
     "Trained team of 5 developers in cloud-native development"]
|}.

Definition test_project3 : Project.t := {|
  Project.project_name := "Retro Mobile Game";
  Project.description := {|
    STARDescription.situation := "Personal project to learn game development";
    STARDescription.task := "Solo developer creating a simple 2D mobile game";
    STARDescription.action := "Used Unity engine and C# to create a classic arcade-style game";
    STARDescription.result := "Published on Google Play Store with 1000+ downloads"
  |};
  Project.technologies := ["Unity"; "C#"; "Blender"; "Android SDK"];
  Project.achievements :=
    ["Learned 3D modeling basics"; "Implemented touch controls"; "Published on app store"]
|}.

Definition test_work_experience1 : WorkExperience.t := {|
  WorkExperience.mission := {|
    Mission.job_title := "Senior Frontend Developer";
    Mission.company_name := "Tech Corp";
    Mission.start_date := date 2020 1 1;
    Mission.end_date := date 2023 1 1;
    Mission.overall_summary := "Led frontend development team in modernizing e-commerce platform"
  |};
  WorkExperience.projects := [test_project1; test_project2]
|}.

Definition test_work_experience2 : WorkExperience.t := {|
  WorkExperience.mission := {|
    Mission.job_title := "Game Developer";
    Mission.company_name := "Indie Games Studio";
    Mission.start_date := date 2019 6 1;
    Mission.end_date := date 2019 12 1;
    Mission.overall_summary := "Developed mobile games using Unity engine"
  |};
  WorkExperience.projects := [test_project3]
|}.

Definition test_requirements : JobRequirements.t := {|
  JobRequirements.hard_skills := ["React.js"; "TypeScript"; "Python"; "AWS"];
  JobRequirements.soft_skills := ["Leadership"; "Communication"; "Problem Solving"];
  JobRequirements.education_level := "Bachelor's";
  JobRequirements.certifications := ["AWS Certified"];
  JobRequirements.experience := {|
    ExperienceRequirement.years_of_experience := 3;
    ExperienceRequirement.relevant_experiences :=
      ["Frontend development"; "Team leadership"; "E-commerce platforms"]
  |};
  JobRequirements.languages := ["English"];
  JobRequirements.other_conditions := ["Remote work possible"]
|}.

Definition test_job_offer : JobOffer.t := {|
  JobOffer.job_title := "Senior Frontend Developer";
  JobOffer.company_name := "Tech Innovators Inc.";
  JobOffer.location := "Remote";
  JobOffer.employment_type := "Full-time";
  JobOffer.description := "Looking for an experienced frontend developer to lead our e-commerce platform modernization";
  JobOffer.requirements := test_requirements;
  JobOffer.perks := ["Health insurance"; "Remote work"; "Flexible hours"; "Learning budget"];
  JobOffer.application_deadline := date 2024 12 31
|}.

Definition test_certification : Certification.t := {|
  Certification.name := "AWS Certified Developer";
  Certification.issuing_organization := "Amazon Web Services";
  Certification.issue_date := date 2021 1 1;
  Certification.expiration_date := date 2024 1 1
|}.

Definition test_achievement : Achievement.t := {|
  Achievement.title := "Best Team Lead";
  Achievement.description := "Led team to successful delivery of major project"
|}.

Definition test_developer : Developer.t := {|
  Developer.name := "John Doe";
  Developer.contact_info := {|
    ContactInfo.email := "john@example.com";
    ContactInfo.phone := "123-456-7890";
    ContactInfo.address := "123 Tech Street"
  |};
  Developer.linkedin_url := "linkedin.com/in/johndoe";
  Developer.github_url := "github.com/johndoe";
  Developer.website_url := "johndoe.dev";
  Developer.professional_summary := "Senior developer with 5 years of experience in web development";
  Developer.technical_skills := [
    {| Skill.name := "React.js"; Skill.level := "Expert" |};
    {| Skill.name := "TypeScript"; Skill.level := "Advanced" |};
    {| Skill.name := "Python"; Skill.level := "Intermediate" |};
    {| Skill.name := "Docker"; Skill.level := "Beginner" |}
  ];
  Developer.soft_skills := ["Leadership"; "Communication"; "Problem Solving"];
  Developer.work_experiences := [test_work_experience1; test_work_experience2];
  Developer.education := [
    {| Education.institution_name := "Tech University";
       Education.degree := "Bachelor's";
       Education.field_of_study := "Computer Science";
       Education.start_date := date 2015 9 1;
       Education.end_date := date 2019 6 1 |}
  ];
  Developer.certifications := [test_certification];
  Developer.languages := [
    {| Language.name := "English"; Language.proficiency := "Native" |};
    {| Language.name := "French"; Language.proficiency := "Intermediate" |}
  ];
  Developer.achievements := [test_achievement];
  Developer.hobbies := ["Open Source Contributing"; "Tech Blogging"];
  Developer.job_preferences := {|
    JobPreferences.job_title := "Senior Software Engineer";
    JobPreferences.location := "Remote";
    JobPreferences.employment_type := "Full-time";
    JobPreferences.remote_work := true;
    JobPreferences.salary_expectation := "Competitive";
    JobPreferences.other_conditions := ["Flexible hours"; "Health insurance"]
  |}
|}.

(** A run of the two chains on the test data: the background chain keeps
    three skills and one line of education, the project chain accepts the
    two projects of the first mission and rejects the game. *)
Definition verdict (is_match : bool) (reason : string) : outcome ProjectMatchResponse.t :=
  Returned {| ProjectMatchResponse.is_match := is_match;
              ProjectMatchResponse.matching_reason := reason |}.

Definition test_background_reply : BackgroundMatchResponse.t := {|
  BackgroundMatchResponse.relevant_skills := ["React.js"; "TypeScript"; "Python"];
  BackgroundMatchResponse.relevant_education := ["Bachelor's in Computer Science"];
  BackgroundMatchResponse.match_explanation := "The frontend skills match the position"
|}.

Definition test_script : Script.t := {|
  Script.background_reply := Returned test_background_reply;
  Script.project_replies :=
    [verdict true "uses React.js and TypeScript"; verdict true "uses Python and AWS";
     verdict false "no required technology"]
|}.

(** ** The vocabulary of the properties *)

(** [sub] occurs in [s]: some text before it and some text after it make
    up [s]. *)
Definition is_substring (sub s : string) : Prop :=
  ∃ before after, s = before +:+ sub +:+ after.

(** The sum of (end year - start year) over the work experiences. *)
Fixpoint total_years (work_experiences : list WorkExperience.t) : Z :=
  match work_experiences with
  | [] => 0
  | exp :: rest =>
      (Date.year (Mission.end_date (WorkExperience.mission exp))
         - Date.year (Mission.start_date (WorkExperience.mission exp)))
      + total_years rest
  end%Z.

(** The years a mission spans: the year it starts in and the year it ends
    in. *)
Definition mission_years (exp : WorkExperience.t) : Z * Z :=
  (Date.year (Mission.start_date (WorkExperience.mission exp)),
   Date.year (Mission.end_date (WorkExperience.mission exp))).

(** The sentence of the summary that carries the years of experience. *)
Definition years_sentence (years : Z) : string :=
  "and " +:+ str_of_int years +:+ "+ years of relevant experience".

(** The names of a list of skills, separated by a comma and a space. *)
Fixpoint comma_separated (names : list string) : string :=
  match names with
  | [] => ""
  | [name] => name
  | name :: rest => name +:+ ", " +:+ comma_separated rest
  end.

(** The summary as one text: the names of the first three relevant skills
    when there is a relevant skill, the first relevant education entry when
    there is one, the years, and the position sought. *)
Definition summary_text
    (skills : list Skill.t) (education : list string) (years : Z)
    (job_title company_name : string) : string :=
  match skills with
  | [] => ""
  | _ :: _ => "Experienced in " +:+ comma_separated (Skill.name <$> take 3 skills) +:+ " "
  end
  +:+ match education with
      | [] => ""
      | edu :: _ => "with " +:+ edu +:+ " "
      end
  +:+ "and " +:+ str_of_int years +:+ "+ years of relevant experience"
  +:+ " seeking " +:+ job_title +:+ " position at " +:+ company_name.

(** How many of the verdicts of the project chain say "match". *)
Definition count_matches (verdicts : list (bool * string)) : nat :=
  length (filter (λ v, v.1 = true) verdicts).

(** The two dictionaries [_match_project_to_requirements] sends to the
    project chain. *)
Definition project_dict_of (project : Project.t) : ProjectDict.t := {|
  ProjectDict.name := Project.project_name project;
  ProjectDict.description := {|
    ProjectDict.situation := STARDescription.situation (Project.description project);
    ProjectDict.task := STARDescription.task (Project.description project);
    ProjectDict.action := STARDescription.action (Project.description project);
    ProjectDict.result := STARDescription.result (Project.description project)
  |};
  ProjectDict.technologies := Project.technologies project;
  ProjectDict.achievements := Project.achievements project
|}.

Definition project_requirements_dict_of (requirements : JobRequirements.t)
    : ProjectRequirementsDict.t := {|
  ProjectRequirementsDict.hard_skills := JobRequirements.hard_skills requirements;
  ProjectRequirementsDict.soft_skills := JobRequirements.soft_skills requirements;
  ProjectRequirementsDict.experience := {|
    ExperienceDict.years :=
      ExperienceRequirement.years_of_experience (JobRequirements.experience requirements);
    ExperienceDict.types :=
      ExperienceRequirement.relevant_experiences (JobRequirements.experience requirements)
  |}
|}.

(** The entries appended to [relevant_work_experiences] for the verdicts
    on the projects of each work experience: the work experience once per
    matching verdict. *)
Definition experience_entries
    (work_experiences : list WorkExperience.t) (verdicts : list (list (bool * string)))
    : list WorkExperience.t :=
  concat (zip_with (λ exp vs, replicate (count_matches vs) exp) work_experiences verdicts).

Section Transcript.
Context `{Platform}.

(** The verdicts of the project chain on [projects], asked one after the
    other; the first call that raises ends the asking. *)
Fixpoint ask_projects (requirements : JobRequirements.t) (projects : list Project.t)
    : M (list (bool * string)) :=
  match projects with
  | [] => mret []
  | project :: rest =>
      v ← _match_project_to_requirements project requirements;
      vs ← ask_projects requirements rest;
      mret (v :: vs)
  end.

(** The verdicts on the projects of each work experience, mission after
    mission. *)
Fixpoint ask_experiences (requirements : JobRequirements.t)
    (work_experiences : list WorkExperience.t) : M (list (list (bool * string))) :=
  match work_experiences with
  | [] => mret []
  | exp :: rest =>
      vs ← ask_projects requirements (WorkExperience.projects exp);
      vss ← ask_experiences requirements rest;
      mret (vs :: vss)
  end.

(** The text the loop searches: title, one space, description. *)
Definition achievement_text (achievement : Achievement.t) : string :=
  Achievement.title achievement +:+ " " +:+ Achievement.description achievement.

(** The test of the loop body on one achievement. *)
Definition is_relevant (requirements : JobRequirements.t) (achievement : Achievement.t)
    : bool :=
  any (λ skill, str_contains (str_lower skill) (str_lower (achievement_text achievement)))
      (JobRequirements.hard_skills requirements ++ JobRequirements.soft_skills requirements).

(** Some required skill of the job, hard or soft, occurs in [text], both
    taken in lower case. *)
Definition mentions_required_skill (requirements : JobRequirements.t) (text : string) : Prop :=
  ∃ skill,
    skill ∈ JobRequirements.hard_skills requirements
              ++ JobRequirements.soft_skills requirements
    ∧ is_substring (str_lower skill) (str_lower text).

End Transcript.

(** The resume [generate_resume] returns on the test data with that run,
    and the script left once the three project calls are answered. *)
Definition test_resume : Resume.t := {|
  Resume.developer := test_developer;
  Resume.job_offer := test_job_offer;
  Resume.professional_summary :=
    "Experienced in React.js, TypeScript, Python with Bachelor's in Computer Science and 3+ years of relevant experience seeking Senior Frontend Developer position at Tech Innovators Inc.";
  Resume.relevant_skills := [
    {| Skill.name := "React.js"; Skill.level := "Expert" |};
    {| Skill.name := "TypeScript"; Skill.level := "Advanced" |};
    {| Skill.name := "Python"; Skill.level := "Intermediate" |}
  ];
  Resume.relevant_experience := [test_work_experience1; test_work_experience1];
  Resume.relevant_certifications := [];
  Resume.relevant_education := ["Bachelor's in Computer Science"];
  Resume.relevant_languages := [{| Language.name := "English"; Language.proficiency := "Native" |}];
  Resume.highlighted_achievements := []
|}.

Definition test_script_answered : Script.t := {|
  Script.background_reply := Returned test_background_reply;
  Script.project_replies := []
|}.

(** Variations of the test data. *)
Definition with_requirements (job_offer : JobOffer.t) (requirements : JobRequirements.t)
    : JobOffer.t := {|
  JobOffer.job_title := JobOffer.job_title job_offer;
  JobOffer.company_name := JobOffer.company_name job_offer;
  JobOffer.location := JobOffer.location job_offer;
  JobOffer.employment_type := JobOffer.employment_type job_offer;
  JobOffer.description := JobOffer.description job_offer;
  JobOffer.requirements := requirements;
  JobOffer.perks := JobOffer.perks job_offer;
  JobOffer.application_deadline := JobOffer.application_deadline job_offer
|}.

Definition with_required
    (requirements : JobRequirements.t) (hard_skills soft_skills certifications : list string)
    : JobRequirements.t := {|
  JobRequirements.hard_skills := hard_skills;
  JobRequirements.soft_skills := soft_skills;
  JobRequirements.education_level := JobRequirements.education_level requirements;
  JobRequirements.certifications := certifications;
  JobRequirements.experience := JobRequirements.experience requirements;
  JobRequirements.languages := JobRequirements.languages requirements;
  JobRequirements.other_conditions := JobRequirements.other_conditions requirements
|}.

(** The test offer asking for the certification the test developer holds,
    under its exact name. *)
Definition job_offer_with_certification : JobOffer.t :=
  with_requirements test_job_offer
    (with_required test_requirements
       (JobRequirements.hard_skills test_requirements)
       (JobRequirements.soft_skills test_requirements) ["AWS Certified Developer"]).

(** The test offer asking for no certification. *)
Definition job_offer_without_certification : JobOffer.t :=
  with_requirements test_job_offer
    (with_required test_requirements
       (JobRequirements.hard_skills test_requirements)
       (JobRequirements.soft_skills test_requirements) []).

Definition with_education (developer : Developer.t) (education : list Education.t)
    : Developer.t := {|
  Developer.name := Developer.name developer;
  Developer.contact_info := Developer.contact_info developer;
  Developer.linkedin_url := Developer.linkedin_url developer;
  Developer.github_url := Developer.github_url developer;
  Developer.website_url := Developer.website_url developer;
  Developer.professional_summary := Developer.professional_summary developer;
  Developer.technical_skills := Developer.technical_skills developer;
  Developer.soft_skills := Developer.soft_skills developer;
  Developer.work_experiences := Developer.work_experiences developer;
  Developer.education := education;
  Developer.certifications := Developer.certifications developer;
  Developer.languages := Developer.languages developer;
  Developer.achievements := Developer.achievements developer;
  Developer.hobbies := Developer.hobbies developer;
  Developer.job_preferences := Developer.job_preferences developer
|}.

(** The test developer with no education entry. *)
Definition self_taught_developer : Developer.t := with_education test_developer [].

(** A run in which the project chain answers the first call and fails on
    the second, with a third reply it is never asked for. *)
Definition test_script_failing : Script.t := {|
  Script.background_reply := Returned test_background_reply;
  Script.project_replies :=
    [verdict true "uses React.js and TypeScript"; Raised "rate limit exceeded";
     verdict true "never asked"]
|}.

Definition test_script_failed : Script.t := {|
  Script.background_reply := Returned test_background_reply;
  Script.project_replies := [verdict true "never asked"]
|}.

Definition with_achievements (developer : Developer.t) (achievements : list Achievement.t)
    : Developer.t := {|
  Developer.name := Developer.name developer;
  Developer.contact_info := Developer.contact_info developer;
  Developer.linkedin_url := Developer.linkedin_url developer;
  Developer.github_url := Developer.github_url developer;
  Developer.website_url := Developer.website_url developer;
  Developer.professional_summary := Developer.professional_summary developer;
  Developer.technical_skills := Developer.technical_skills developer;
  Developer.soft_skills := Developer.soft_skills developer;
  Developer.work_experiences := Developer.work_experiences developer;
  Developer.education := Developer.education developer;
  Developer.certifications := Developer.certifications developer;
  Developer.languages := Developer.languages developer;
  Developer.achievements := achievements;
  Developer.hobbies := Developer.hobbies developer;
  Developer.job_preferences := Developer.job_preferences developer
|}.

(** The test offer with one more hard skill, whose name occurs in the test
    developer's achievement, and the same with a second one. *)
Definition job_offer_team_lead : JobOffer.t :=
  with_requirements test_job_offer
    (with_required test_requirements
       (JobRequirements.hard_skills test_requirements ++ ["Team Lead"])
       (JobRequirements.soft_skills test_requirements)
       (JobRequirements.certifications test_requirements)).

Definition job_offer_team_lead_delivery : JobOffer.t :=
  with_requirements test_job_offer
    (with_required test_requirements
       (JobRequirements.hard_skills test_requirements ++ ["Team Lead"; "Delivery"])
       (JobRequirements.soft_skills test_requirements)
       (JobRequirements.certifications test_requirements)).

(** An achievement whose title ends and whose description starts with the
    two halves of a required soft skill. *)
Definition teamwork_achievement : Achievement.t := {|
  Achievement.title := "Best Team";
  Achievement.description := "work ethic award"
|}.

Definition teamwork_developer : Developer.t :=
  with_achievements test_developer [teamwork_achievement].

Definition teamwork_job_offer : JobOffer.t :=
  with_requirements test_job_offer
    (with_required test_requirements
       (JobRequirements.hard_skills test_requirements)
       ["Teamwork"]
       (JobRequirements.certifications test_requirements)).

(** Another run on the test data: the same reply of the background chain,
    and the project chain rejecting every project. *)
Definition test_script_rejecting : Script.t := {|
  Script.background_reply := Returned test_background_reply;
  Script.project_replies :=
    [verdict false "too old"; verdict false "not a frontend project";
     verdict false "no required technology"]
|}.

(** The resume of that run: as [test_resume], without any experience. *)
Definition test_resume_rejecting : Resume.t := {|
  Resume.developer := Resume.developer test_resume;
  Resume.job_offer := Resume.job_offer test_resume;
  Resume.professional_summary := Resume.professional_summary test_resume;
  Resume.relevant_skills := Resume.relevant_skills test_resume;
  Resume.relevant_experience := [];
  Resume.relevant_certifications := Resume.relevant_certifications test_resume;
  Resume.relevant_education := Resume.relevant_education test_resume;
  Resume.relevant_languages := Resume.relevant_languages test_resume;
  Resume.highlighted_achievements := Resume.highlighted_achievements test_resume
|}.

(** * The same functions on the object store

    Above, a developer and a job offer are values.  In Python they are
    objects: a dataclass instance holds its attributes, a list holds its
    items, both can be changed in place, and two names may refer to one
    object.  Here the three functions are written again over a store of
    such objects, reading attributes through references, allocating every
    list the source builds and appending to it in place, so that what a
    call changes can be stated.

    The dictionaries handed to the chains are passed by their content, as
    before: the chains read them. *)

Module Store.

Definition loc := positive.

(** What an attribute or a list item holds: an immutable value or a
    reference to an object. *)
Inductive value :=
| VNone
| VStr (s : string)
| VInt (z : Z)
| VBool (b : bool)
| VDate (d : Date.t)
| VRef (l : loc).

Inductive object :=
| Instance (class_name : string) (attributes : gmap string value)
| PyList (items : list value)
| PyTuple (items : list value).

Abbreviation heap := (gmap loc object).

(** The attributes of an instance, from their names and values. *)
Definition attributes_of (named : list (string * value)) : gmap string value :=
  list_to_map named.

Section Functions.
Context `{Platform}.

Record state := { store : heap; world : World }.

Definition HM (A : Type) : Type := state → state * outcome A.

Global Instance HM_ret : MRet HM := λ A a st, (st, Returned a).

Global Instance HM_bind : MBind HM := λ A B k m st,
  match m st with
  | (st', Returned a) => k a st'
  | (st', Raised e) => (st', Raised e)
  end.

Definition raise {A : Type} (e : Exn) : HM A := λ st, (st, Raised e).

(** ** Reading *)

Definition deref (v : value) : HM object := λ st,
  match v with
  | VRef l =>
      match store st !! l with
      | Some o => (st, Returned o)
      | None => (st, Raised "ReferenceError")
      end
  | _ => (st, Raised "AttributeError")
  end.

(** [v.name]. *)
Definition getattr (v : value) (name : string) : HM value :=
  o ← deref v;
  match o with
  | Instance _ attributes =>
      match attributes !! name with
      | Some x => mret x
      | None => raise "AttributeError"
      end
  | _ => raise "AttributeError"
  end.

(** The items of the list [v], for iterating over it. *)
Definition list_items (v : value) : HM (list value) :=
  o ← deref v;
  match o with
  | PyList items => mret items
  | _ => raise "TypeError"
  end.

Definition as_str (v : value) : HM string :=
  match v with VStr s => mret s | _ => raise "TypeError" end.

Definition as_int (v : value) : HM Z :=
  match v with VInt z => mret z | _ => raise "TypeError" end.

Definition as_date (v : value) : HM Date.t :=
  match v with VDate d => mret d | _ => raise "TypeError" end.

Definition get_str (v : value) (name : string) : HM string :=
  x ← getattr v name; as_str x.

Definition get_int (v : value) (name : string) : HM Z :=
  x ← getattr v name; as_int x.

Definition get_date (v : value) (name : string) : HM Date.t :=
  x ← getattr v name; as_date x.

Definition get_list (v : value) (name : string) : HM (list value) :=
  x ← getattr v name; list_items x.

(** One computation per item, in order. *)
Fixpoint for_each {A B : Type} (f : A → HM B) (xs : list A) : HM (list B) :=
  match xs with
  | [] => mret []
  | x :: rest => y ← f x; ys ← for_each f rest; mret (y :: ys)
  end.

(** The items a comprehension keeps. *)
Fixpoint keep_if {A : Type} (f : A → HM bool) (xs : list A) : HM (list A) :=
  match xs with
  | [] => mret []
  | x :: rest =>
      keep ← f x;
      kept ← keep_if f rest;
      mret (if keep : bool then x :: kept else kept)
  end.

(** A list attribute whose items are [str]. *)
Definition get_str_list (v : value) (name : string) : HM (list string) :=
  items ← get_list v name; for_each as_str items.

(** ** Writing *)

(** A new object, at a location the store does not use. *)
Definition alloc (o : object) : HM value := λ st,
  let l := fresh (dom (store st)) in
  ({| store := <[l := o]> (store st); world := world st |}, Returned (VRef l)).

(** [v.append(x)]. *)
Definition list_append (v x : value) : HM unit := λ st,
  match v with
  | VRef l =>
      match store st !! l with
      | Some (PyList items) =>
          ({| store := <[l := PyList (items ++ [x])]> (store st); world := world st |},
           Returned ())
      | _ => (st, Raised "AttributeError")
      end
  | _ => (st, Raised "AttributeError")
  end.

(** ** The chains *)

Definition invoke_project_chain
    (project_dict : ProjectDict.t) (requirements_dict : ProjectRequirementsDict.t)
    : HM ProjectMatchResponse.t := λ st,
  let '(w, reply) := project_chain_invoke project_dict requirements_dict (world st) in
  ({| store := store st; world := w |}, reply).

Definition invoke_background_chain
    (background_dict : BackgroundDict.t) (requirements_dict : BackgroundRequirementsDict.t)
    : HM BackgroundMatchResponse.t := λ st,
  let '(w, reply) := background_chain_invoke background_dict requirements_dict (world st) in
  ({| store := store st; world := w |}, reply).

(** ** The functions *)

Definition _match_project_to_requirements (project requirements : value)
    : HM (bool * string) :=
  name ← get_str project "project_name";
  description ← getattr project "description";
  situation ← get_str description "situation";
  task ← get_str description "task";
  action ← get_str description "action";
  result ← get_str description "result";
  technologies ← get_str_list project "technologies";
  achievements ← get_str_list project "achievements";
  hard_skills ← get_str_list requirements "hard_skills";
  soft_skills ← get_str_list requirements "soft_skills";
  experience ← getattr requirements "experience";
  years ← get_int experience "years_of_experience";
  types ← get_str_list experience "relevant_experiences";
  response ← invoke_project_chain
    {| ProjectDict.name := name;
       ProjectDict.description :=
         {| ProjectDict.situation := situation; ProjectDict.task := task;
            ProjectDict.action := action; ProjectDict.result := result |};
       ProjectDict.technologies := technologies;
       ProjectDict.achievements := achievements |}
    {| ProjectRequirementsDict.hard_skills := hard_skills;
       ProjectRequirementsDict.soft_skills := soft_skills;
       ProjectRequirementsDict.experience :=
         {| ExperienceDict.years := years; ExperienceDict.types := types |} |};
  mret (ProjectMatchResponse.is_match response,
        ProjectMatchResponse.matching_reason response).

Definition _match_developer_background (developer experience_req requirements : value)
    : HM (value * value) :=
  technical_skills ← get_list developer "technical_skills";
  skills ← for_each
    (λ skill,
       name ← get_str skill "name";
       level ← get_str skill "level";
       mret {| BackgroundDict.name := name; BackgroundDict.proficiency := level |})
    technical_skills;
  education_entries ← get_list developer "education";
  education ← for_each
    (λ edu,
       degree ← get_str edu "degree";
       field_of_study ← get_str edu "field_of_study";
       institution_name ← get_str edu "institution_name";
       end_date ← get_date edu "end_date";
       mret {| BackgroundDict.degree := degree;
               BackgroundDict.field := field_of_study;
               BackgroundDict.institution := institution_name;
               BackgroundDict.graduation_date := isoformat end_date |})
    education_entries;
  work_experiences ← get_list developer "work_experiences";
  work_experience ← for_each
    (λ exp,
       mission ← getattr exp "mission";
       job_title ← get_str mission "job_title";
       company_name ← get_str mission "company_name";
       start_date ← get_date mission "start_date";
       end_date ← get_date mission "end_date";
       overall_summary ← get_str mission "overall_summary";
       mret {| BackgroundDict.title := job_title;
               BackgroundDict.company := company_name;
               BackgroundDict.duration :=
                 isoformat start_date +:+ " to " +:+ isoformat end_date;
               BackgroundDict.summary := overall_summary |})
    work_experiences;
  hard_skills ← get_str_list requirements "hard_skills";
  soft_skills ← get_str_list requirements "soft_skills";
  education_level ← get_str requirements "education_level";
  years ← get_int experience_req "years_of_experience";
  types ← get_str_list experience_req "relevant_experiences";
  response ← invoke_background_chain
    {| BackgroundDict.skills := skills;
       BackgroundDict.education := education;
       BackgroundDict.work_experience := work_experience |}
    {| BackgroundRequirementsDict.hard_skills := hard_skills;
       BackgroundRequirementsDict.soft_skills := soft_skills;
       BackgroundRequirementsDict.education_level := education_level;
       BackgroundRequirementsDict.experience :=
         {| ExperienceDict.years := years; ExperienceDict.types := types |} |};
  technical_skills ← get_list developer "technical_skills";
  kept ← keep_if
    (λ skill,
       name ← get_str skill "name";
       mret (list_contains name (BackgroundMatchResponse.relevant_skills response)))
    technical_skills;
  relevant_skills ← alloc (PyList kept);
  relevant_education ←
    alloc (PyList (VStr <$> BackgroundMatchResponse.relevant_education response));
  mret (relevant_skills, relevant_education).

Fixpoint for_project_in
    (job_offer exp : value) (projects : list value)
    (relevant_projects relevant_work_experiences : value) : HM unit :=
  match projects with
  | [] => mret ()
  | project :: rest =>
      requirements ← getattr job_offer "requirements";
      '(is_match, matching_reasons) ← _match_project_to_requirements project requirements;
      (if is_match : bool then
         pair ← alloc (PyTuple [project; VStr matching_reasons]);
         list_append relevant_projects pair;;
         list_append relevant_work_experiences exp
       else mret ());;
      for_project_in job_offer exp rest relevant_projects relevant_work_experiences
  end.

Fixpoint for_exp_in
    (job_offer : value) (work_experiences : list value)
    (relevant_projects relevant_work_experiences : value) : HM unit :=
  match work_experiences with
  | [] => mret ()
  | exp :: rest =>
      projects ← get_list exp "projects";
      for_project_in job_offer exp projects relevant_projects relevant_work_experiences;;
      for_exp_in job_offer rest relevant_projects relevant_work_experiences
  end.

Fixpoint for_achievement_in
    (job_offer : value) (achievements : list value) (relevant_achievements : value)
    : HM unit :=
  match achievements with
  | [] => mret ()
  | achievement :: rest =>
      title ← get_str achievement "title";
      description ← get_str achievement "description";
      let achievement_text := str_lower (title +:+ " " +:+ description) in
      requirements ← getattr job_offer "requirements";
      hard_skills ← get_str_list requirements "hard_skills";
      requirements ← getattr job_offer "requirements";
      soft_skills ← get_str_list requirements "soft_skills";
      let is_relevant :=
        any (λ skill, str_contains (str_lower skill) achievement_text)
            (hard_skills ++ soft_skills) in
      (if is_relevant then list_append relevant_achievements achievement else mret ());;
      for_achievement_in job_offer rest relevant_achievements
  end.

(** The test of the two last comprehensions: [item.name in
    job_offer.requirements.<required>]. *)
Definition name_is_required (job_offer : value) (required : string) (item : value)
    : HM bool :=
  name ← get_str item "name";
  requirements ← getattr job_offer "requirements";
  names ← get_str_list requirements required;
  mret (list_contains name names).

Definition generate_resume (developer job_offer : value) : HM value :=
  requirements ← getattr job_offer "requirements";
  experience ← getattr requirements "experience";
  requirements ← getattr job_offer "requirements";
  '(relevant_skills, relevant_education) ←
    _match_developer_background developer experience requirements;
  relevant_projects ← alloc (PyList []);
  relevant_work_experiences ← alloc (PyList []);
  work_experiences ← get_list developer "work_experiences";
  for_exp_in job_offer work_experiences relevant_projects relevant_work_experiences;;
  summary_parts ← alloc (PyList []);
  skills ← list_items relevant_skills;
  (if truthy skills then
     names ← for_each (λ skill, get_str skill "name") (take 3 skills);
     list_append summary_parts (VStr ("Experienced in " +:+ join ", " names))
   else mret ());;
  education ← list_items relevant_education;
  match education with
  | edu :: _ =>
      edu ← as_str edu;
      list_append summary_parts (VStr ("with " +:+ edu))
  | [] => mret ()
  end;;
  work_experiences ← get_list developer "work_experiences";
  years ← for_each
    (λ exp,
       mission ← getattr exp "mission";
       end_date ← get_date mission "end_date";
       mission ← getattr exp "mission";
       start_date ← get_date mission "start_date";
       mret (Date.year end_date - Date.year start_date)%Z)
    work_experiences;
  let years_exp := sum_of (λ y, y) years in
  list_append summary_parts
    (VStr ("and " +:+ str_of_int years_exp +:+ "+ years of relevant experience"));;
  job_title ← get_str job_offer "job_title";
  company_name ← get_str job_offer "company_name";
  list_append summary_parts
    (VStr ("seeking " +:+ job_title +:+ " position at " +:+ company_name));;
  parts ← list_items summary_parts;
  parts ← for_each as_str parts;
  let professional_summary := join " " parts in
  certifications ← get_list developer "certifications";
  kept ← keep_if (name_is_required job_offer "certifications") certifications;
  relevant_certifications ← alloc (PyList kept);
  languages ← get_list developer "languages";
  kept ← keep_if (name_is_required job_offer "languages") languages;
  relevant_languages ← alloc (PyList kept);
  relevant_achievements ← alloc (PyList []);
  achievements ← get_list developer "achievements";
  for_achievement_in job_offer achievements relevant_achievements;;
  alloc (Instance "Resume"
           (attributes_of [ ("developer", developer);
              ("job_offer", job_offer);
              ("professional_summary", VStr professional_summary);
              ("relevant_skills", relevant_skills);
              ("relevant_experience", relevant_work_experiences);
              ("relevant_certifications", relevant_certifications);
              ("relevant_education", relevant_education);
              ("relevant_languages", relevant_languages);
              ("highlighted_achievements", relevant_achievements) ])).

(** ** Building the inputs

    What the dataclass constructors do: one instance per record, one list
    object per list attribute. *)

Definition new_list {A : Type} (new_item : A → HM value) (xs : list A) : HM value :=
  items ← for_each new_item xs; alloc (PyList items).

Definition new_str_list (xs : list string) : HM value := alloc (PyList (VStr <$> xs)).

Definition new_skill (skill : Skill.t) : HM value :=
  alloc (Instance "Skill"
           (attributes_of [ ("name", VStr (Skill.name skill)); ("level", VStr (Skill.level skill)) ])).

Definition new_education (edu : Education.t) : HM value :=
  alloc (Instance "Education"
           (attributes_of [ ("institution_name", VStr (Education.institution_name edu));
              ("degree", VStr (Education.degree edu));
              ("field_of_study", VStr (Education.field_of_study edu));
              ("start_date", VDate (Education.start_date edu));
              ("end_date", VDate (Education.end_date edu)) ])).

Definition new_certification (cert : Certification.t) : HM value :=
  alloc (Instance "Certification"
           (attributes_of [ ("name", VStr (Certification.name cert));
              ("issuing_organization", VStr (Certification.issuing_organization cert));
              ("issue_date", VDate (Certification.issue_date cert));
              ("expiration_date", VDate (Certification.expiration_date cert)) ])).

Definition new_language (lang : Language.t) : HM value :=
  alloc (Instance "Language"
           (attributes_of [ ("name", VStr (Language.name lang));
              ("proficiency", VStr (Language.proficiency lang)) ])).

Definition new_achievement (achievement : Achievement.t) : HM value :=
  alloc (Instance "Achievement"
           (attributes_of [ ("title", VStr (Achievement.title achievement));
              ("description", VStr (Achievement.description achievement)) ])).

Definition new_contact_info (contact : ContactInfo.t) : HM value :=
  alloc (Instance "ContactInfo"
           (attributes_of [ ("email", VStr (ContactInfo.email contact));
              ("phone", VStr (ContactInfo.phone contact));
              ("address", VStr (ContactInfo.address contact)) ])).

Definition new_job_preferences (preferences : JobPreferences.t) : HM value :=
  other_conditions ← new_str_list (JobPreferences.other_conditions preferences);
  alloc (Instance "JobPreferences"
           (attributes_of [ ("job_title", VStr (JobPreferences.job_title preferences));
              ("location", VStr (JobPreferences.location preferences));
              ("employment_type", VStr (JobPreferences.employment_type preferences));
              ("remote_work", VBool (JobPreferences.remote_work preferences));
              ("salary_expectation", VStr (JobPreferences.salary_expectation preferences));
              ("other_conditions", other_conditions) ])).

Definition new_project (project : Project.t) : HM value :=
  description ← alloc (Instance "STARDescription"
    (attributes_of [ ("situation", VStr (STARDescription.situation (Project.description project)));
       ("task", VStr (STARDescription.task (Project.description project)));
       ("action", VStr (STARDescription.action (Project.description project)));
       ("result", VStr (STARDescription.result (Project.description project))) ]));
  technologies ← new_str_list (Project.technologies project);
  achievements ← new_str_list (Project.achievements project);
  alloc (Instance "Project"
           (attributes_of [ ("project_name", VStr (Project.project_name project));
              ("description", description);
              ("technologies", technologies);
              ("achievements", achievements) ])).

Definition new_work_experience (exp : WorkExperience.t) : HM value :=
  mission ← alloc (Instance "Mission"
    (attributes_of [ ("job_title", VStr (Mission.job_title (WorkExperience.mission exp)));
       ("company_name", VStr (Mission.company_name (WorkExperience.mission exp)));
       ("start_date", VDate (Mission.start_date (WorkExperience.mission exp)));
       ("end_date", VDate (Mission.end_date (WorkExperience.mission exp)));
       ("overall_summary", VStr (Mission.overall_summary (WorkExperience.mission exp))) ]));
  projects ← new_list new_project (WorkExperience.projects exp);
  alloc (Instance "WorkExperience" (attributes_of [ ("mission", mission); ("projects", projects) ])).

Definition new_developer (developer : Developer.t) : HM value :=
  contact_info ← new_contact_info (Developer.contact_info developer);
  technical_skills ← new_list new_skill (Developer.technical_skills developer);
  soft_skills ← new_str_list (Developer.soft_skills developer);
  work_experiences ← new_list new_work_experience (Developer.work_experiences developer);
  education ← new_list new_education (Developer.education developer);
  certifications ← new_list new_certification (Developer.certifications developer);
  languages ← new_list new_language (Developer.languages developer);
  achievements ← new_list new_achievement (Developer.achievements developer);
  hobbies ← new_str_list (Developer.hobbies developer);
  job_preferences ← new_job_preferences (Developer.job_preferences developer);
  alloc (Instance "Developer"
           (attributes_of [ ("name", VStr (Developer.name developer));
              ("contact_info", contact_info);
              ("linkedin_url", VStr (Developer.linkedin_url developer));
              ("github_url", VStr (Developer.github_url developer));
              ("website_url", VStr (Developer.website_url developer));
              ("professional_summary", VStr (Developer.professional_summary developer));
              ("technical_skills", technical_skills);
              ("soft_skills", soft_skills);
              ("work_experiences", work_experiences);
              ("education", education);
              ("certifications", certifications);
              ("languages", languages);
              ("achievements", achievements);
              ("hobbies", hobbies);
              ("job_preferences", job_preferences) ])).

Definition new_job_requirements (requirements : JobRequirements.t) : HM value :=
  hard_skills ← new_str_list (JobRequirements.hard_skills requirements);
  soft_skills ← new_str_list (JobRequirements.soft_skills requirements);
  certifications ← new_str_list (JobRequirements.certifications requirements);
  relevant_experiences ← new_str_list
    (ExperienceRequirement.relevant_experiences (JobRequirements.experience requirements));
  experience ← alloc (Instance "ExperienceRequirement"
    (attributes_of [ ("years_of_experience", VInt (ExperienceRequirement.years_of_experience
                 (JobRequirements.experience requirements)));
       ("relevant_experiences", relevant_experiences) ]));
  languages ← new_str_list (JobRequirements.languages requirements);
  other_conditions ← new_str_list (JobRequirements.other_conditions requirements);
  alloc (Instance "JobRequirements"
           (attributes_of [ ("hard_skills", hard_skills);
              ("soft_skills", soft_skills);
              ("education_level", VStr (JobRequirements.education_level requirements));
              ("certifications", certifications);
              ("experience", experience);
              ("languages", languages);
              ("other_conditions", other_conditions) ])).

Definition new_job_offer (job_offer : JobOffer.t) : HM value :=
  requirements ← new_job_requirements (JobOffer.requirements job_offer);
  perks ← new_str_list (JobOffer.perks job_offer);
  alloc (Instance "JobOffer"
           (attributes_of [ ("job_title", VStr (JobOffer.job_title job_offer));
              ("company_name", VStr (JobOffer.company_name job_offer));
              ("location", VStr (JobOffer.location job_offer));
              ("employment_type", VStr (JobOffer.employment_type job_offer));
              ("description", VStr (JobOffer.description job_offer));
              ("requirements", requirements);
              ("perks", perks);
              ("application_deadline", VDate (JobOffer.application_deadline job_offer)) ])).

(** The objects of a developer and a job offer, then the resume made of
    them: the two inputs, the resume, and the store in between. *)
Definition resume_of (developer : Developer.t) (job_offer : JobOffer.t)
    : HM (value * value * value * heap) :=
  developer ← new_developer developer;
  job_offer ← new_job_offer job_offer;
  before ← (λ st, (st, Returned (store st)));
  resume ← generate_resume developer job_offer;
  mret (developer, job_offer, resume, before).

(** ** What a computation leaves alone *)

(** [v] refers to an object that [h0] does not hold. *)
Definition fresh_for (h0 : heap) (v : value) : Prop :=
  ∃ l, v = VRef l ∧ h0 !! l = None.

(** [m] changes no object of [h0]: run from a store that holds the objects
    of [h0] as they are, it ends, returning or raising, in a store that
    still holds them as they are; and what it returns satisfies [Q]. *)
Definition preserves {A : Type} (h0 : heap) (m : HM A) (Q : A → state → Prop) : Prop :=
  ∀ st, h0 ⊆ store st →
    match m st with
    | (st', Returned a) => h0 ⊆ store st' ∧ Q a st'
    | (st', Raised _) => h0 ⊆ store st'
    end.

(** [v] is a resume of [developer] and [job_offer] built beside [h0]: a
    new instance whose [developer] and [job_offer] attributes are these
    two values, and whose six lists are objects that [h0] does not hold. *)
Definition is_resume_of (h0 : heap) (developer job_offer v : value) (st : state) : Prop :=
  ∃ l attributes,
    v = VRef l
    ∧ h0 !! l = None
    ∧ store st !! l = Some (Instance "Resume" attributes)
    ∧ attributes !! "developer" = Some developer
    ∧ attributes !! "job_offer" = Some job_offer
    ∧ ∀ name,
        name ∈ ["relevant_skills"; "relevant_experience"; "relevant_certifications";
                "relevant_education"; "relevant_languages"; "highlighted_achievements"] →
        ∃ list, attributes !! name = Some list ∧ fresh_for h0 list.

End Functions.
End Store.

(** ** The test data in the store *)

(** Looking into a store: an attribute of an instance, the items of a
    list. *)
Definition attribute_in (h : Store.heap) (v : Store.value) (name : string)
    : option Store.value :=
  match v with
  | Store.VRef l =>
      match h !! l with
      | Some (Store.Instance _ attributes) => attributes !! name
      | _ => None
      end
  | _ => None
  end.

Definition items_in (h : Store.heap) (v : option Store.value) : option (list Store.value) :=
  match v with
  | Some (Store.VRef l) =>
      match h !! l with
      | Some (Store.PyList items) => Some items
      | _ => None
      end
  | _ => None
  end.

(** The objects of the test developer and of the test job offer, built in
    an empty store, with the run of the chains of [test_script] ahead. *)
Definition test_inputs : Store.HM (H := scripted) (Store.value * Store.value) :=
  developer ← Store.new_developer test_developer;
  job_offer ← Store.new_job_offer test_job_offer;
  mret (developer, job_offer).

Definition empty_state : Store.state (H := scripted) :=
  @Store.Build_state scripted ∅ test_script.

Definition test_state : Store.state (H := scripted) := (test_inputs empty_state).1.

Definition test_developer_object : Store.value := Store.VRef 39%positive.

Definition test_job_offer_object : Store.value := Store.VRef 49%positive.

(** The resume [generate_resume] returns on them. *)
Definition test_resume_object : Store.value := Store.VRef 60%positive.

(** The same objects with the failing run of the chains ahead. *)
Definition test_state_failing : Store.state (H := scripted) :=
  @Store.Build_state scripted (Store.store test_state) test_script_failing.

(** * The rest of the pipeline *)

(** ** [Resume.generate_markdown] *)

(** [resume_data], the dictionary [generate_markdown] sends to the markdown
    chain.  The entries of ["projects"] have the keys of [project_dict]. *)
Module ResumeData.
Record job_target_t := { title : string; company : string; description : string }.
Record contact_info_t := {
  name : string;
  email : string;
  phone : string;
  location : string;
  linkedin : string;
  github : string;
  website : string
}.
Record skill_t := { skill_name : string; skill_level : string }.
Record experience_t := {
  experience_title : string;
  experience_company : string;
  duration : string;
  summary : string;
  projects : list ProjectDict.t
}.
Record education_t := {
  degree : string;
  field : string;
  institution : string;
  graduation : string
}.
Record certification_t := {
  certification_name : string;
  issuer : string;
  date : string;
  expiry : string
}.
Record language_t := { language_name : string; language_level : string }.
Record achievement_t := { achievement_title : string; achievement_description : string }.
Record t := {
  job_target : job_target_t;
  professional_summary : string;
  contact_info : contact_info_t;
  skills : list skill_t;
  experience : list experience_t;
  education : list education_t;
  certifications : list certification_t;
  languages : list language_t;
  achievements : list achievement_t
}.
End ResumeData.


Section Markdown.
Context `{Writer}.



End Markdown.

(** ** The statistics of [display_resume_generation]

    Two of the metrics of the "Statistics" tab of [pages/3_Resume.py], as
    the values handed to [st.metric]. *)

(** ["Projects Match"]:
    [len([proj for exp in resume.relevant_experience for proj in exp.projects])]. *)
Definition projects_match (resume : Resume.t) : nat :=
  length (flat_map (λ exp, map (λ proj, proj) (WorkExperience.projects exp))
            (Resume.relevant_experience resume)).

(** ["Requirements Match"]. *)
Definition requirements_match (resume : Resume.t) (job_offer : JobOffer.t) : string :=
  str_of_int (Z.of_nat (length (Resume.relevant_certifications resume)))
    +:+ "/"
    +:+ str_of_int
          (Z.of_nat
             (length (JobRequirements.certifications (JobOffer.requirements job_offer)))).

(** The work experiences counted with their verdicts: a work experience
    counts all its projects once per matching verdict. *)
Definition projects_counted
    (work_experiences : list WorkExperience.t) (verdicts : list (list (bool * string)))
    : nat :=
  sum_list (zip_with (λ exp vs, count_matches vs * length (WorkExperience.projects exp))
              work_experiences verdicts).

(** How many verdicts say "match", over all work experiences. *)
Definition projects_matched (verdicts : list (list (bool * string))) : nat :=
  sum_list (count_matches <$> verdicts).


Definition with_work_experiences
    (developer : Developer.t) (work_experiences : list WorkExperience.t)
    : Developer.t := {|
  Developer.name := Developer.name developer;
  Developer.contact_info := Developer.contact_info developer;
  Developer.linkedin_url := Developer.linkedin_url developer;
  Developer.github_url := Developer.github_url developer;
  Developer.website_url := Developer.website_url developer;
  Developer.professional_summary := Developer.professional_summary developer;
  Developer.technical_skills := Developer.technical_skills developer;
  Developer.soft_skills := Developer.soft_skills developer;
  Developer.work_experiences := work_experiences;
  Developer.education := Developer.education developer;
  Developer.certifications := Developer.certifications developer;
  Developer.languages := Developer.languages developer;
  Developer.achievements := Developer.achievements developer;
  Developer.hobbies := Developer.hobbies developer;
  Developer.job_preferences := Developer.job_preferences developer
|}.

(** The test developer before any work experience is added. *)
Definition newcomer : Developer.t := with_work_experiences test_developer [].

(** The verdicts of [test_script] on the test developer. *)
Definition test_verdicts : list (list (bool * string)) :=
  [[(true, "uses React.js and TypeScript"); (true, "uses Python and AWS")];
   [(false, "no required technology")]].

(** A run in which the project chain accepts the first project only. *)
Definition test_script_first_only : Script.t := {|
  Script.background_reply := Returned test_background_reply;
  Script.project_replies :=
    [verdict true "uses React.js and TypeScript"; verdict false "no frontend work";
     verdict false "no required technology"]
|}.

Definition test_verdicts_first_only : list (list (bool * string)) :=
  [[(true, "uses React.js and TypeScript"); (false, "no frontend work")];
   [(false, "no required technology")]].

(** The test offer with an empty name among its soft skills. *)
Definition job_offer_with_empty_skill : JobOffer.t :=
  with_requirements test_job_offer
    (with_required test_requirements
       (JobRequirements.hard_skills test_requirements)
       (JobRequirements.soft_skills test_requirements ++ [""])
       (JobRequirements.certifications test_requirements)).

(** ** The comma-separated fields of the forms *)

(** [text.split(sep)] for a separator of one character: the pieces between
    the separators, the empty ones too. *)
Fixpoint str_split (sep : ascii) (text : string) : list string :=
  match text with
  | EmptyString => [""]
  | String c rest =>
      if Ascii.eqb c sep then "" :: str_split sep rest
      else match str_split sep rest with
           | item :: items => String c item :: items
           | [] => [String c ""]
           end
  end.
Arguments str_split sep%_char text%_string.

(** [text.count(c)] for one character. *)
Fixpoint str_count (c : ascii) (text : string) : nat :=
  match text with
  | EmptyString => 0
  | String c' rest => (if Ascii.eqb c' c then 1 else 0) + str_count c rest
  end.
Arguments str_count c%_char text%_string.

(** The truth value of a [str]: non-empty. *)
Definition str_truthy (s : string) : bool :=
  match s with
  | EmptyString => false
  | String _ _ => true
  end.

Section Forms.

(** [c.isspace()], Python's notion of a whitespace character. *)
Variable isspace : ascii → bool.

Fixpoint lstrip (s : string) : string :=
  match s with
  | EmptyString => ""
  | String c rest => if isspace c then lstrip rest else s
  end.

Fixpoint rstrip (s : string) : string :=
  match s with
  | EmptyString => ""
  | String c rest =>
      match rstrip rest with
      | EmptyString => if isspace c then "" else String c ""
      | String _ _ as kept => String c kept
      end
  end.

(** [s.strip()]: [s] without the whitespace at its two ends. *)
Definition strip (s : string) : string := rstrip (lstrip s).

(** [cleanup_list] of [pages/1_Developer_Profile.py]. *)
Definition cleanup_list (text : string) : list string :=
  if str_truthy text then map strip (str_split "," text) else [].

(** The comprehension [pages/2_Job_Offer.py] reads its six lists with:
    [[s.strip() for s in text.split(",") if s.strip()]]. *)
Definition job_offer_list (text : string) : list string :=
  flat_map (λ s, if str_truthy (strip s) then [strip s] else []) (str_split "," text).

(** A string that does not start with whitespace. *)
Definition lstripped (s : string) : Prop :=
  match s with
  | EmptyString => True
  | String c _ => isspace c = false
  end.

(** An item as the job offer page keeps them: not empty, without a comma,
    without whitespace at its ends. *)
Definition form_item (item : string) : Prop :=
  item ≠ "" ∧ str_contains "," item = false ∧ strip item = item.

End Forms.

(** Whitespace among the ASCII characters, as [str.isspace] has it. *)
Definition ascii_isspace (c : ascii) : bool :=
  let n := nat_of_ascii c in
  ((9 <=? n) && (n <=? 13) || (28 <=? n) && (n <=? 32))%nat.

(** ** [WorkExperience.from_text] *)

(** The structured output of the parser chain: the pydantic models of
    [_create_work_experiences_parser], with the dates as [str]. *)
Module STARModel.
Record t := { situation : string; task : string; action : string; result : string }.
End STARModel.

Module ProjectModel.
Record t := {
  project_name : string;
  description : STARModel.t;
  technologies : list string;
  achievements : list string
}.
End ProjectModel.

Module MissionModel.
Record t := {
  job_title : string;
  company_name : string;
  start_date : string;
  end_date : string;
  overall_summary : string
}.
End MissionModel.

Module WorkExperienceModel.
Record t := { mission : MissionModel.t; projects : list ProjectModel.t }.
End WorkExperienceModel.

Module WorkExperienceListModel.
Record t := { work_experiences : list WorkExperienceModel.t }.
End WorkExperienceListModel.

(** What [from_text] takes from outside the repository: the parser chain,
    called on the text, and [datetime.strptime(date_str, format).date()],
    which returns a date or raises [ValueError]. *)
Class Reader `{Platform} := {
  work_experiences_chain_invoke :
    string → World → World * outcome WorkExperienceListModel.t;
  strptime_date : string → string → outcome Date.t
}.

Section Reading.
Context `{Reader}.

Definition parse_date (date_str : string) : M Date.t := λ w,
  (w, strptime_date date_str "%Y-%m-%d").

(** The [Project] instances of one experience of the reply. *)
Definition projects_of (experience : WorkExperienceModel.t) : list Project.t :=
  map (λ proj, {|
         Project.project_name := ProjectModel.project_name proj;
         Project.description := {|
           STARDescription.situation := STARModel.situation (ProjectModel.description proj);
           STARDescription.task := STARModel.task (ProjectModel.description proj);
           STARDescription.action := STARModel.action (ProjectModel.description proj);
           STARDescription.result := STARModel.result (ProjectModel.description proj)
         |};
         Project.technologies := ProjectModel.technologies proj;
         Project.achievements := ProjectModel.achievements proj |})
      (WorkExperienceModel.projects experience).

(** The loop over [response.work_experiences], which appends to
    [work_experiences]; the start date is parsed before the end date.  The
    [print] of each experience is left out. *)
Fixpoint for_experience_in
    (experiences : list WorkExperienceModel.t) (work_experiences : list WorkExperience.t)
    : M (list WorkExperience.t) :=
  match experiences with
  | [] => mret work_experiences
  | experience :: rest =>
      start_date ←
        parse_date (MissionModel.start_date (WorkExperienceModel.mission experience));
      end_date ← parse_date (MissionModel.end_date (WorkExperienceModel.mission experience));
      let mission := {|
        Mission.job_title := MissionModel.job_title (WorkExperienceModel.mission experience);
        Mission.company_name :=
          MissionModel.company_name (WorkExperienceModel.mission experience);
        Mission.start_date := start_date;
        Mission.end_date := end_date;
        Mission.overall_summary :=
          MissionModel.overall_summary (WorkExperienceModel.mission experience)
      |} in
      let projects := projects_of experience in
      for_experience_in rest
        (work_experiences
           ++ [ {| WorkExperience.mission := mission; WorkExperience.projects := projects |} ])
  end.

(** [WorkExperience.from_text]. *)
Definition from_text (text : string) : M (list WorkExperience.t) :=
  response ← work_experiences_chain_invoke text;
  for_experience_in (WorkExperienceListModel.work_experiences response) [].

(** [work_experience] is what [from_text] makes of [experience]: the dates
    parsed, everything else copied. *)
Definition parsed_as
    (experience : WorkExperienceModel.t) (work_experience : WorkExperience.t) : Prop :=
  let mission := WorkExperience.mission work_experience in
  let model := WorkExperienceModel.mission experience in
  Mission.job_title mission = MissionModel.job_title model
  ∧ Mission.company_name mission = MissionModel.company_name model
  ∧ strptime_date (MissionModel.start_date model) "%Y-%m-%d"
    = Returned (Mission.start_date mission)
  ∧ strptime_date (MissionModel.end_date model) "%Y-%m-%d"
    = Returned (Mission.end_date mission)
  ∧ Mission.overall_summary mission = MissionModel.overall_summary model
  ∧ WorkExperience.projects work_experience = projects_of experience.

(** Whether the two dates of the mission of [experience] can be parsed. *)
Definition dates_parse (experience : WorkExperienceModel.t) : bool :=
  match strptime_date (MissionModel.start_date (WorkExperienceModel.mission experience))
          "%Y-%m-%d",
        strptime_date (MissionModel.end_date (WorkExperienceModel.mission experience))
          "%Y-%m-%d" with
  | Returned _, Returned _ => true
  | _, _ => false
  end.

End Reading.

(** ["Current Role"] of [display_resume_generation] in [pages/3_Resume.py]:
    [developer.work_experiences[-1].mission.job_title]. *)
Definition current_role (developer : Developer.t) : outcome string :=
  match last (Developer.work_experiences developer) with
  | Some exp => Returned (Mission.job_title (WorkExperience.mission exp))
  | None => Raised "IndexError"
  end.

(** A date parser for running [from_text]: year, month and day in
    decimal with a hyphen between them, the month from 1 to 12 and the day
    from 1 to 31. *)
Definition scripted_strptime (date_str format : string) : outcome Date.t :=
  match NilZero.uint_of_string <$> str_split "-" date_str with
  | [Some year; Some month; Some day] =>
      let m := Z.of_uint month in
      let d := Z.of_uint day in
      if ((1 <=? m) && (m <=? 12) && (1 <=? d) && (d <=? 31))%Z
      then Returned {| Date.year := Z.of_uint year; Date.month := m; Date.day := d |}
      else Raised "ValueError"
  | _ => Raised "ValueError"
  end.

(** A reader whose chain answers [reply] to every text. *)
Definition scripted_reader (reply : WorkExperienceListModel.t) : Reader (H := scripted) := {|
  work_experiences_chain_invoke := λ _ w, (w, Returned reply);
  strptime_date := scripted_strptime
|}.

(** The mission of [test_work_experience1] as the parser chain gives it. *)
Definition test_mission_model (end_date : string) : MissionModel.t := {|
  MissionModel.job_title := Mission.job_title (WorkExperience.mission test_work_experience1);
  MissionModel.company_name :=
    Mission.company_name (WorkExperience.mission test_work_experience1);
  MissionModel.start_date :=
    isoformat (Mission.start_date (WorkExperience.mission test_work_experience1));
  MissionModel.end_date := end_date;
  MissionModel.overall_summary :=
    Mission.overall_summary (WorkExperience.mission test_work_experience1)
|}.

Definition test_experience_model : WorkExperienceModel.t := {|
  WorkExperienceModel.mission :=
    test_mission_model
      (isoformat (Mission.end_date (WorkExperience.mission test_work_experience1)));
  WorkExperienceModel.projects := []
|}.

(** The same experience, still going on. *)
Definition test_experience_model_present : WorkExperienceModel.t := {|
  WorkExperienceModel.mission := test_mission_model "Present";
  WorkExperienceModel.projects := []
|}.

Definition test_reply_dated : WorkExperienceListModel.t :=
  {| WorkExperienceListModel.work_experiences := [test_experience_model] |}.

Definition test_reply_present : WorkExperienceListModel.t := {|
  WorkExperienceListModel.work_experiences :=
    [test_experience_model; test_experience_model_present]
|}.

(** ** Reading the object store only *)

(** A computation that only reads: whatever it returns or raises, the
    state after is the state before. *)
Definition reads `{Platform} {A : Type} (m : Store.HM A) : Prop :=
  ∀ st, (m st).1 = st.

(** [m] raises from [st] and leaves it as it is. *)
Definition raises_at `{Platform} {A : Type} (st : Store.state) (m : Store.HM A) : Prop :=
  ∃ e, m st = (st, Raised e).

(** The test data with, as the mission of the first work experience, what
    the "Submit" of [pages/1_Developer_Profile.py] stores there: a [dict],
    which has entries and none of the attributes of [Mission]. *)
Definition test_mission_location : Store.loc := 8%positive.

Definition test_work_experience_object : Store.value := Store.VRef 18%positive.

Definition test_state_dict_mission : Store.state (H := scripted) :=
  @Store.Build_state scripted
    (<[test_mission_location := Store.Instance "dict" ∅]> (Store.store test_state))
    test_script.

(** * Properties *)

(** ** The Python operations *)

Lemma list_contains_elem_of (x : string) (xs : list string) :
  list_contains x xs = true ↔ x ∈ xs.
Proof.
  induction xs as [|y ys IH]; simpl.
  - split; [discriminate | by intros ?%elem_of_nil].
  - destruct (String.eqb x y) eqn:Hxy.
    + apply String.eqb_eq in Hxy as ->. split; [intros _; left | done].
    + apply String.eqb_neq in Hxy. rewrite IH, elem_of_cons. split; [by right|].
      by intros [?|?].
Qed.

(** A comprehension [[x for x in xs if f(x)]] keeps what satisfies the
    property [f] decides. *)
Lemma comprehension_filter {A : Type} (f : A → bool) (P : A → Prop)
    `{∀ x, Decision (P x)} (xs : list A) :
  (∀ x, f x = true ↔ P x) → List.filter f xs = filter P xs.
Proof.
  intros Hf. induction xs as [|x xs IH]; [done|].
  simpl. rewrite filter_cons. destruct (f x) eqn:Hfx.
  - rewrite decide_True by by apply Hf. by rewrite IH.
  - rewrite decide_False; [done|]. intros HP%Hf. congruence.
Qed.

Lemma any_exists {A : Type} (f : A → bool) (xs : list A) :
  any f xs = true ↔ ∃ x, x ∈ xs ∧ f x = true.
Proof.
  induction xs as [|x xs IH]; simpl.
  - split; [discriminate | by intros (? & ?%elem_of_nil & _)].
  - destruct (f x) eqn:Hfx.
    + split; [intros _; exists x; split; [left | done] | done].
    + rewrite IH. split.
      * intros (y & Hy & Hfy). exists y. split; [by right | done].
      * intros (y & [->|Hy]%elem_of_cons & Hfy); [congruence | by exists y].
Qed.

Lemma append_cons (c : Ascii.ascii) (s1 s2 : string) :
  String c s1 +:+ s2 = String c (s1 +:+ s2).
Proof. reflexivity. Qed.

Lemma append_empty_l (s : string) : "" +:+ s = s.
Proof. reflexivity. Qed.

Lemma prefix_append (sub s : string) :
  String.prefix sub s = true ↔ ∃ after, s = sub +:+ after.
Proof.
  revert s. induction sub as [|c sub IH]; intros s.
  - split; [intros _; by exists s | by destruct s].
  - destruct s as [|d s]; simpl.
    + split; [discriminate | by intros (? & ?)].
    + destruct (Ascii.ascii_dec c d) as [->|Hcd].
      * rewrite IH. split; intros (after & Hs); exists after;
          rewrite append_cons in *; congruence.
      * split; [discriminate|]. intros (after & Hs).
        rewrite append_cons in Hs. congruence.
Qed.

Lemma str_contains_substring (sub s : string) :
  str_contains sub s = true ↔ is_substring sub s.
Proof.
  unfold is_substring. induction s as [|c s IH].
  - change (str_contains sub "") with (if String.prefix sub "" then true else false).
    destruct (String.prefix sub "") eqn:Hp.
    + apply prefix_append in Hp as (after & Hs). split; [intros _ | done].
      exists "", after. by rewrite append_empty_l.
    + split; [discriminate|]. intros ([|??] & after & Hs); [|discriminate].
      rewrite append_empty_l in Hs.
      assert (String.prefix sub "" = true) as Hp'; [|congruence].
      apply prefix_append. by exists after.
  - change (str_contains sub (String c s))
      with (if String.prefix sub (String c s) then true else str_contains sub s).
    destruct (String.prefix sub (String c s)) eqn:Hp.
    + apply prefix_append in Hp as (after & Hs). split; [intros _ | done].
      exists "", after. by rewrite append_empty_l.
    + rewrite IH. split.
      * intros (before & after & ->). exists (String c before), after.
        by rewrite append_cons.
      * intros ([|d before] & after & Hs).
        -- rewrite append_empty_l in Hs.
           assert (String.prefix sub (String c s) = true) as Hp'; [|congruence].
           apply prefix_append. by exists after.
        -- exists before, after. rewrite append_cons in Hs. congruence.
Qed.

Lemma sum_of_from {A : Type} (f : A → Z) (xs : list A) (start : Z) :
  fold_left (λ acc x, acc + f x)%Z xs start
  = (start + fold_left (λ acc x, acc + f x) xs 0)%Z.
Proof.
  revert start. induction xs as [|x xs IH]; intros start; simpl; [lia|].
  rewrite (IH (start + f x)%Z), (IH (0 + f x)%Z). lia.
Qed.

Lemma sum_of_cons {A : Type} (f : A → Z) (x : A) (xs : list A) :
  sum_of f (x :: xs) = (f x + sum_of f xs)%Z.
Proof. unfold sum_of. simpl. rewrite sum_of_from. lia. Qed.

Lemma append_assoc (s1 s2 s3 : string) : (s1 +:+ s2) +:+ s3 = s1 +:+ s2 +:+ s3.
Proof. induction s1 as [|c s1 IH]; [done | by rewrite !append_cons, IH]. Qed.

Lemma append_empty_r (s : string) : s +:+ "" = s.
Proof. induction s as [|c s IH]; [done | by rewrite append_cons, IH]. Qed.

Lemma join_comma_separated (names : list string) :
  join ", " names = comma_separated names.
Proof.
  unfold join. induction names as [|name [|name' rest] IH]; [done..|].
  change (String.concat ", " (name :: name' :: rest))
    with (name +:+ ", " +:+ String.concat ", " (name' :: rest)).
  by rewrite IH.
Qed.

(** ** Running a computation *)

Section Running.
Context `{Platform}.

Lemma run_ret {A : Type} (a : A) (w : World) : mret (M := M) a w = (w, Returned a).
Proof. reflexivity. Qed.

Lemma run_bind {A B : Type} (m : M A) (k : A → M B) (w : World) :
  (m ≫= k) w
  = match m w with
    | (w', Returned a) => k a w'
    | (w', Raised e) => (w', Raised e)
    end.
Proof. reflexivity. Qed.

Lemma run_bind_returned {A B : Type} (m : M A) (k : A → M B) (w w' : World) (a : A) :
  m w = (w', Returned a) → (m ≫= k) w = k a w'.
Proof. intros Hm. by rewrite run_bind, Hm. Qed.

Lemma run_bind_raised {A B : Type} (m : M A) (k : A → M B) (w w' : World) (e : Exn) :
  m w = (w', Raised e) → (m ≫= k) w = (w', Raised e).
Proof. intros Hm. by rewrite run_bind, Hm. Qed.

Lemma bind_returned_inv {A B : Type} (m : M A) (k : A → M B) (w w2 : World) (b : B) :
  (m ≫= k) w = (w2, Returned b) →
  ∃ w1 a, m w = (w1, Returned a) ∧ k a w1 = (w2, Returned b).
Proof.
  rewrite run_bind. destruct (m w) as [w1 [a|e]]; [|discriminate].
  intros Hk. by exists w1, a.
Qed.

(** What a run of [generate_resume] that returns has gone through: the two
    matching steps, and the fields of the resume as the source computes
    them. *)
Lemma generate_resume_returned developer job_offer w w' r :
  generate_resume developer job_offer w = (w', Returned r) →
  ∃ w1 relevant_skills relevant_education relevant_projects relevant_work_experiences,
    _match_developer_background developer
      (JobRequirements.experience (JobOffer.requirements job_offer))
      (JobOffer.requirements job_offer) w
    = (w1, Returned (relevant_skills, relevant_education))
    ∧ for_exp_in (JobOffer.requirements job_offer)
        (Developer.work_experiences developer) [] [] w1
      = (w', Returned (relevant_projects, relevant_work_experiences))
    ∧ Resume.developer r = developer
    ∧ Resume.job_offer r = job_offer
    ∧ Resume.relevant_skills r = relevant_skills
    ∧ Resume.relevant_education r = relevant_education
    ∧ Resume.relevant_experience r = relevant_work_experiences
    ∧ Resume.relevant_certifications r
      = List.filter
          (λ cert, list_contains (Certification.name cert)
                     (JobRequirements.certifications (JobOffer.requirements job_offer)))
          (Developer.certifications developer)
    ∧ Resume.relevant_languages r
      = List.filter
          (λ lang, list_contains (Language.name lang)
                     (JobRequirements.languages (JobOffer.requirements job_offer)))
          (Developer.languages developer)
    ∧ Resume.highlighted_achievements r
      = for_achievement_in (JobOffer.requirements job_offer)
          (Developer.achievements developer) []
    ∧ Resume.professional_summary r
      = join " "
          ((if truthy relevant_skills
            then ["Experienced in " +:+ join ", " (map Skill.name (take 3 relevant_skills))]
            else [])
           ++ match relevant_education with
              | edu :: _ => ["with " +:+ edu]
              | [] => []
              end
           ++ ["and " +:+ str_of_int
                 (sum_of (λ exp, Date.year (Mission.end_date (WorkExperience.mission exp))
                                 - Date.year (Mission.start_date (WorkExperience.mission exp)))%Z
                    (Developer.work_experiences developer))
                 +:+ "+ years of relevant experience";
               "seeking " +:+ JobOffer.job_title job_offer +:+ " position at "
                 +:+ JobOffer.company_name job_offer]).
Proof.
  unfold generate_resume. intros Hrun.
  apply bind_returned_inv in Hrun as (w1 & [relevant_skills relevant_education] & Hbg & Hrun).
  apply bind_returned_inv in Hrun as (w2 & [relevant_projects relevant_work_experiences] & Hloop & Hret).
  rewrite run_ret in Hret. injection Hret as <- <-.
  exists w1, relevant_skills, relevant_education, relevant_projects, relevant_work_experiences.
  repeat split; try done.
  cbn [Resume.professional_summary]. f_equal.
  destruct relevant_skills, relevant_education; reflexivity.
Qed.

End Running.

(** ** Certifications and languages *)

Section Selection.
Context `{Platform}.

(** C1. The relevant certifications are exactly the developer's
    certifications whose name is one of the job's required certification
    names, the names compared as equal strings, in the order of the
    developer's list; and the relevant languages are the developer's
    languages whose name is one of the job's required languages, likewise. *)
Theorem relevant_certifications_and_languages developer job_offer w w' r :
  generate_resume developer job_offer w = (w', Returned r) →
  Resume.relevant_certifications r
  = filter (λ cert, Certification.name cert
                      ∈ JobRequirements.certifications (JobOffer.requirements job_offer))
      (Developer.certifications developer)
  ∧ Resume.relevant_languages r
    = filter (λ lang, Language.name lang
                        ∈ JobRequirements.languages (JobOffer.requirements job_offer))
        (Developer.languages developer).
Proof.
  intros Hrun.
  apply generate_resume_returned in Hrun
    as (_ & _ & _ & _ & _ & _ & _ & _ & _ & _ & _ & _ & Hcerts & Hlangs & _).
  rewrite Hcerts, Hlangs. split.
  - apply comprehension_filter. intros cert. apply list_contains_elem_of.
  - apply comprehension_filter. intros lang. apply list_contains_elem_of.
Qed.

(** C7. When the job offer requires no certification, no certification is
    relevant, whatever certifications the developer holds. *)
Theorem no_required_certification developer job_offer w w' r :
  JobRequirements.certifications (JobOffer.requirements job_offer) = [] →
  generate_resume developer job_offer w = (w', Returned r) →
  Resume.relevant_certifications r = [].
Proof.
  intros Hnone Hrun.
  apply generate_resume_returned in Hrun
    as (_ & _ & _ & _ & _ & _ & _ & _ & _ & _ & _ & _ & Hcerts & _).
  rewrite Hcerts, Hnone. clear.
  induction (Developer.certifications developer) as [|cert certs IH]; [done|].
  simpl. exact IH.
Qed.

End Selection.

Lemma relevant_certifications_and_languages_witness :
  Resume.relevant_certifications test_resume
  = filter (λ cert, Certification.name cert
                      ∈ JobRequirements.certifications (JobOffer.requirements test_job_offer))
      (Developer.certifications test_developer)
  ∧ Resume.relevant_languages test_resume
    = filter (λ lang, Language.name lang
                        ∈ JobRequirements.languages (JobOffer.requirements test_job_offer))
        (Developer.languages test_developer).
Proof.
  apply (relevant_certifications_and_languages (H := scripted)
           test_developer test_job_offer test_script test_script_answered test_resume).
  vm_compute. reflexivity.
Defined.

Lemma no_required_certification_witness :
  ∃ w' r,
    generate_resume (H := scripted) test_developer job_offer_without_certification test_script
    = (w', Returned r)
    ∧ Developer.certifications test_developer = [test_certification]
    ∧ Resume.relevant_certifications r = [].
Proof.
  eexists _, _. split; [vm_compute; reflexivity|]. split; [reflexivity|].
  apply (no_required_certification (H := scripted)
           test_developer job_offer_without_certification test_script test_script_answered).
  - reflexivity.
  - vm_compute. reflexivity.
Defined.

(** ** Achievements *)

Section Achievements.
Context `{Platform}.

Lemma for_achievement_in_filter requirements achievements relevant_achievements :
  for_achievement_in requirements achievements relevant_achievements
  = relevant_achievements ++ List.filter (is_relevant requirements) achievements.
Proof.
  revert relevant_achievements.
  induction achievements as [|achievement rest IH]; intros relevant_achievements; simpl.
  - by rewrite app_nil_r.
  - fold (achievement_text achievement). fold (is_relevant requirements achievement).
    destruct (is_relevant requirements achievement); rewrite IH; [|done].
    by rewrite <- app_assoc.
Qed.

Lemma is_relevant_mentions requirements achievement :
  is_relevant requirements achievement = true
  ↔ mentions_required_skill requirements (achievement_text achievement).
Proof.
  unfold is_relevant, mentions_required_skill. rewrite any_exists.
  split; intros (skill & Hskill & Hin); exists skill; (split; [done|]);
    by apply str_contains_substring.
Qed.

Lemma highlighted_elem_of requirements achievements achievement :
  achievement ∈ for_achievement_in requirements achievements []
  ↔ achievement ∈ achievements ∧ is_relevant requirements achievement = true.
Proof.
  rewrite for_achievement_in_filter, app_nil_l.
  rewrite !list_elem_of_In. apply filter_In.
Qed.

(** C2, as the code has it: an achievement of the developer is among the
    highlighted achievements exactly when some required skill of the job,
    hard or soft, occurs, both sides in lower case, in the text made of the
    achievement's title, one space, and its description. *)
Theorem highlighted_achievements_spec developer job_offer w w' r :
  generate_resume developer job_offer w = (w', Returned r) →
  ∀ achievement,
    achievement ∈ Resume.highlighted_achievements r
    ↔ achievement ∈ Developer.achievements developer
      ∧ mentions_required_skill (JobOffer.requirements job_offer)
          (Achievement.title achievement +:+ " " +:+ Achievement.description achievement).
Proof.
  intros Hrun achievement.
  apply generate_resume_returned in Hrun
    as (_ & _ & _ & _ & _ & _ & _ & _ & _ & _ & _ & _ & _ & _ & Hach & _).
  rewrite Hach, highlighted_elem_of, is_relevant_mentions. done.
Qed.

(** C3. The achievement filter is monotonic in the required skills: on
    the same developer, an achievement highlighted for a job offer is
    highlighted for every job offer whose required skills, hard and soft
    together, include those of the first. *)
Theorem highlighted_achievements_monotonic
    developer job_offer job_offer' w1 w1' r1 w2 w2' r2 :
  JobRequirements.hard_skills (JobOffer.requirements job_offer)
    ++ JobRequirements.soft_skills (JobOffer.requirements job_offer)
  ⊆ JobRequirements.hard_skills (JobOffer.requirements job_offer')
      ++ JobRequirements.soft_skills (JobOffer.requirements job_offer') →
  generate_resume developer job_offer w1 = (w1', Returned r1) →
  generate_resume developer job_offer' w2 = (w2', Returned r2) →
  ∀ achievement,
    achievement ∈ Resume.highlighted_achievements r1 →
    achievement ∈ Resume.highlighted_achievements r2.
Proof.
  intros Hmore Hrun1 Hrun2 achievement.
  apply generate_resume_returned in Hrun1
    as (_ & _ & _ & _ & _ & _ & _ & _ & _ & _ & _ & _ & _ & _ & Hach1 & _).
  apply generate_resume_returned in Hrun2
    as (_ & _ & _ & _ & _ & _ & _ & _ & _ & _ & _ & _ & _ & _ & Hach2 & _).
  rewrite Hach1, Hach2, !highlighted_elem_of.
  intros [Hin Hrel]. split; [done|].
  unfold is_relevant in *. apply any_exists in Hrel as (skill & Hskill & Hfound).
  apply any_exists. exists skill. split; [by apply Hmore | done].
Qed.

End Achievements.

Lemma highlighted_achievements_spec_witness :
  ∃ w' r,
    generate_resume (H := scripted) test_developer job_offer_team_lead test_script
    = (w', Returned r)
    ∧ (test_achievement ∈ Resume.highlighted_achievements r
       ↔ test_achievement ∈ Developer.achievements test_developer
         ∧ mentions_required_skill (H := scripted)
             (JobOffer.requirements job_offer_team_lead)
             ("Best Team Lead" +:+ " " +:+ "Led team to successful delivery of major project")).
Proof.
  eexists _, _. split; [vm_compute; reflexivity|].
  apply (highlighted_achievements_spec (H := scripted)
           test_developer job_offer_team_lead test_script test_script_answered).
  vm_compute. reflexivity.
Defined.

(** C2, as stated, fails on the code: with the title and the description
    put together without the space, "teamwork" occurs in "Best Teamwork
    ethic award", and the achievement is not highlighted. *)
Lemma highlighted_achievements_plain_concatenation :
  ∃ w' r,
    generate_resume (H := scripted) teamwork_developer teamwork_job_offer test_script
    = (w', Returned r)
    ∧ teamwork_achievement ∈ Developer.achievements teamwork_developer
    ∧ mentions_required_skill (H := scripted)
        (JobOffer.requirements teamwork_job_offer)
        (Achievement.title teamwork_achievement
           +:+ Achievement.description teamwork_achievement)
    ∧ teamwork_achievement ∉ Resume.highlighted_achievements r.
Proof.
  eexists _, _. split; [vm_compute; reflexivity|]. split; [by left|]. split.
  - exists "Teamwork". split; [by vm_compute; repeat constructor|].
    by exists "best ", " ethic award".
  - by intros ?%elem_of_nil.
Qed.

Lemma highlighted_achievements_monotonic_witness :
  ∃ w1' r1 w2' r2,
    generate_resume (H := scripted) test_developer job_offer_team_lead test_script
    = (w1', Returned r1)
    ∧ generate_resume (H := scripted) test_developer job_offer_team_lead_delivery test_script
      = (w2', Returned r2)
    ∧ test_achievement ∈ Resume.highlighted_achievements r1
    ∧ test_achievement ∈ Resume.highlighted_achievements r2.
Proof.
  eexists _, _, _, _. split; [vm_compute; reflexivity|].
  split; [vm_compute; reflexivity|]. split; [by left|].
  eapply (highlighted_achievements_monotonic (H := scripted)
            test_developer job_offer_team_lead job_offer_team_lead_delivery
            test_script test_script_answered _ test_script test_script_answered _).
  - apply (bool_decide_unpack _). vm_compute. exact I.
  - vm_compute. reflexivity.
  - vm_compute. reflexivity.
  - by left.
Defined.

(** ** The professional summary *)

Lemma join_cons (sep part part' : string) (parts : list string) :
  join sep (part :: part' :: parts) = part +:+ sep +:+ join sep (part' :: parts).
Proof. reflexivity. Qed.

Lemma is_substring_refl (s : string) : is_substring s s.
Proof. exists "", "". by rewrite append_empty_l, append_empty_r. Qed.

Lemma is_substring_append_l (sub s before : string) :
  is_substring sub s → is_substring sub (before +:+ s).
Proof.
  intros (b & a & ->). exists (before +:+ b), a. by rewrite append_assoc.
Qed.

Lemma is_substring_append_r (sub s after : string) :
  is_substring sub s → is_substring sub (s +:+ after).
Proof.
  intros (b & a & ->). exists b, (a +:+ after). by rewrite !append_assoc.
Qed.

(** A part of a joined text occurs in it. *)
Lemma join_substring (sep part : string) (before after : list string) :
  is_substring part (join sep (before ++ part :: after)).
Proof.
  induction before as [|part0 before IH]; cbn [app].
  - destruct after as [|part' after]; [apply is_substring_refl|].
    rewrite join_cons. apply is_substring_append_r, is_substring_refl.
  - destruct (before ++ part :: after) as [|part' parts] eqn:Hparts.
    { by destruct before. }
    rewrite join_cons. by apply is_substring_append_l, is_substring_append_l.
Qed.

Lemma sum_of_total_years (work_experiences : list WorkExperience.t) :
  sum_of (λ exp, Date.year (Mission.end_date (WorkExperience.mission exp))
                 - Date.year (Mission.start_date (WorkExperience.mission exp)))%Z
         work_experiences
  = total_years work_experiences.
Proof.
  induction work_experiences as [|exp rest IH]; [done|].
  rewrite sum_of_cons, IH. done.
Qed.

Section Summary.
Context `{Platform}.

(** C4, as the code has it: the years of experience written in the
    professional summary are the sum of (end year - start year) over all
    the developer's work experiences; for a developer with exactly two
    missions spanning 2020-2023 and 2019-2019 the summary says 3. *)
Theorem years_of_experience_sum developer job_offer w w' r :
  generate_resume developer job_offer w = (w', Returned r) →
  is_substring (years_sentence (total_years (Developer.work_experiences developer)))
    (Resume.professional_summary r)
  ∧ ∀ first second,
      Developer.work_experiences developer = [first; second] →
      mission_years first = (2020, 2023)%Z →
      mission_years second = (2019, 2019)%Z →
      is_substring "and 3+ years of relevant experience" (Resume.professional_summary r).
Proof.
  intros Hrun.
  apply generate_resume_returned in Hrun
    as (_ & relevant_skills & relevant_education & _ & _ & _ & _ & _ & _ & _ & _
        & _ & _ & _ & _ & Hsummary).
  rewrite sum_of_total_years in Hsummary.
  fold (years_sentence (total_years (Developer.work_experiences developer))) in Hsummary.
  assert (is_substring (years_sentence (total_years (Developer.work_experiences developer)))
            (Resume.professional_summary r)) as Hyears.
  { rewrite Hsummary, app_assoc. apply join_substring. }
  split; [done|]. intros first second Hexps Hfirst Hsecond.
  rewrite Hexps in Hyears. unfold mission_years in *. simpl in Hyears.
  injection Hfirst as Hs1 He1. injection Hsecond as Hs2 He2.
  rewrite Hs1, He1, Hs2, He2 in Hyears. exact Hyears.
Qed.

(** C5. The professional summary is one text made of the names of the
    first three relevant skills, the first relevant education entry, the
    summed years of experience, and the title and company of the job
    sought; a part whose list is empty is left out.  So two runs on the
    same developer and job offer in which the background matcher gave the
    same relevant skills and education produce the same summary. *)
Theorem professional_summary_text developer job_offer w1 w1' r1 w2 w2' r2 :
  generate_resume developer job_offer w1 = (w1', Returned r1) →
  generate_resume developer job_offer w2 = (w2', Returned r2) →
  Resume.relevant_skills r1 = Resume.relevant_skills r2 →
  Resume.relevant_education r1 = Resume.relevant_education r2 →
  Resume.professional_summary r1
  = summary_text (Resume.relevant_skills r1) (Resume.relevant_education r1)
      (total_years (Developer.work_experiences developer))
      (JobOffer.job_title job_offer) (JobOffer.company_name job_offer)
  ∧ Resume.professional_summary r2 = Resume.professional_summary r1.
Proof.
  assert (∀ w w' r,
            generate_resume developer job_offer w = (w', Returned r) →
            Resume.professional_summary r
            = summary_text (Resume.relevant_skills r) (Resume.relevant_education r)
                (total_years (Developer.work_experiences developer))
                (JobOffer.job_title job_offer) (JobOffer.company_name job_offer)) as Htext.
  { intros w w' r Hrun.
    apply generate_resume_returned in Hrun
      as (_ & relevant_skills & relevant_education & _ & _ & _ & _ & _ & _ & -> & ->
          & _ & _ & _ & _ & ->).
    rewrite sum_of_total_years, join_comma_separated. unfold summary_text.
    destruct relevant_skills as [|skill skills], relevant_education as [|edu edus];
      cbn [truthy app]; rewrite ?join_cons; unfold join;
      cbn [String.concat]; rewrite ?append_assoc, ?append_empty_l; reflexivity. }
  intros Hrun1 Hrun2 Hskills Heducation.
  split; [by apply (Htext w1 w1')|].
  rewrite (Htext w1 w1' r1 Hrun1), (Htext w2 w2' r2 Hrun2).
  by rewrite Hskills, Heducation.
Qed.

End Summary.

Lemma years_of_experience_sum_witness :
  ∃ w' r,
    generate_resume (H := scripted) test_developer test_job_offer test_script
    = (w', Returned r)
    ∧ is_substring (years_sentence (total_years (Developer.work_experiences test_developer)))
        (Resume.professional_summary r)
    ∧ is_substring "and 3+ years of relevant experience" (Resume.professional_summary r).
Proof.
  eexists _, _. split; [vm_compute; reflexivity|].
  destruct (years_of_experience_sum (H := scripted)
              test_developer test_job_offer test_script test_script_answered test_resume)
    as [Hsum Htwo].
  { vm_compute. reflexivity. }
  split; [exact Hsum|].
  apply (Htwo test_work_experience1 test_work_experience2); reflexivity.
Defined.

(** C4, as stated, fails on the code: the test developer has exactly two
    missions, spanning 2020-2023 and 2019-2019; the years the code sums are
    3, and the summary says 3, not 4. *)
Lemma years_of_experience_test_data :
  ∃ w' r,
    generate_resume (H := scripted) test_developer test_job_offer test_script
    = (w', Returned r)
    ∧ mission_years <$> Developer.work_experiences test_developer
      = [(2020, 2023); (2019, 2019)]%Z
    ∧ sum_of (λ exp, Date.year (Mission.end_date (WorkExperience.mission exp))
                     - Date.year (Mission.start_date (WorkExperience.mission exp)))%Z
             (Developer.work_experiences test_developer) = 3%Z
    ∧ is_substring "and 3+ years of relevant experience" (Resume.professional_summary r)
    ∧ ¬ is_substring "and 4+ years of relevant experience" (Resume.professional_summary r).
Proof.
  eexists _, _. split; [vm_compute; reflexivity|].
  split; [reflexivity|]. split; [reflexivity|]. split.
  - apply str_contains_substring. vm_compute. reflexivity.
  - intros Hfour%str_contains_substring. vm_compute in Hfour. discriminate.
Qed.

Lemma professional_summary_text_witness :
  Resume.professional_summary test_resume
  = summary_text (Resume.relevant_skills test_resume) (Resume.relevant_education test_resume)
      (total_years (Developer.work_experiences test_developer))
      (JobOffer.job_title test_job_offer) (JobOffer.company_name test_job_offer)
  ∧ Resume.professional_summary test_resume_rejecting
    = Resume.professional_summary test_resume.
Proof.
  apply (professional_summary_text (H := scripted)
           test_developer test_job_offer
           test_script test_script_answered test_resume
           test_script_rejecting test_script_answered test_resume_rejecting).
  - vm_compute. reflexivity.
  - vm_compute. reflexivity.
  - reflexivity.
  - reflexivity.
Defined.

(** ** The background matcher *)

Section Background.
Context `{Platform}.

(** What [_match_developer_background] returns: the developer's technical
    skills named in the reply, and the reply's education lines as they
    are. *)
Lemma match_developer_background_returned
    developer experience_req requirements w w' relevant_skills relevant_education :
  _match_developer_background developer experience_req requirements w
  = (w', Returned (relevant_skills, relevant_education)) →
  ∃ background_dict requirements_dict response,
    background_chain_invoke background_dict requirements_dict w = (w', Returned response)
    ∧ relevant_skills
      = filter (λ skill, Skill.name skill ∈ BackgroundMatchResponse.relevant_skills response)
          (Developer.technical_skills developer)
    ∧ relevant_education = BackgroundMatchResponse.relevant_education response.
Proof.
  unfold _match_developer_background. intros Hrun.
  apply bind_returned_inv in Hrun as (w1 & response & Hinvoke & Hret).
  rewrite run_ret in Hret. injection Hret as <- <- <-.
  eexists _, _, response. split; [exact Hinvoke|]. split.
  - apply comprehension_filter. intros skill. apply list_contains_elem_of.
  - apply map_id.
Qed.

(** The relevant skills are a sublist of the developer's technical
    skills, in the developer's order. *)
Lemma relevant_skills_sublist
    developer experience_req requirements w w' relevant_skills relevant_education :
  _match_developer_background developer experience_req requirements w
  = (w', Returned (relevant_skills, relevant_education)) →
  relevant_skills `sublist_of` Developer.technical_skills developer.
Proof.
  intros (_ & _ & response & _ & -> & _)%match_developer_background_returned.
  apply sublist_filter.
Qed.


End Background.


Lemma relevant_skills_sublist_witness :
  Resume.relevant_skills test_resume `sublist_of` Developer.technical_skills test_developer.
Proof.
  apply (relevant_skills_sublist (H := scripted)
           test_developer (JobRequirements.experience test_requirements) test_requirements
           test_script test_script _ (Resume.relevant_education test_resume)).
  vm_compute. reflexivity.
Defined.

(** C6 on a developer with no education entry: the background chain names
    a degree, and that line is the relevant education returned, while the
    developer's education list is empty. *)
Lemma relevant_education_of_self_taught_developer :
  _match_developer_background (H := scripted) self_taught_developer
    (JobRequirements.experience test_requirements) test_requirements test_script
  = (test_script,
     Returned (Resume.relevant_skills test_resume, ["Bachelor's in Computer Science"]))
  ∧ Developer.education self_taught_developer = [].
Proof. split; [vm_compute; reflexivity | reflexivity]. Qed.

(** ** The project loop *)

Section ProjectLoop.
Context `{Platform}.

Lemma match_project_to_requirements_invoke project requirements w :
  _match_project_to_requirements project requirements w
  = match project_chain_invoke (project_dict_of project)
            (project_requirements_dict_of requirements) w with
    | (w', Returned response) =>
        (w', Returned (ProjectMatchResponse.is_match response,
                       ProjectMatchResponse.matching_reason response))
    | (w', Raised e) => (w', Raised e)
    end.
Proof. reflexivity. Qed.

(** The inner loop on [earlier ++ later] is the loop on [earlier] followed
    by the loop on [later]. *)
Lemma for_project_in_app exp requirements earlier later rp rwe w :
  for_project_in exp requirements (earlier ++ later) rp rwe w
  = match for_project_in exp requirements earlier rp rwe w with
    | (w', Returned (rp', rwe')) => for_project_in exp requirements later rp' rwe' w'
    | (w', Raised e) => (w', Raised e)
    end.
Proof.
  revert rp rwe w. induction earlier as [|project earlier IH]; intros rp rwe w; [done|].
  cbn [app for_project_in]. rewrite !run_bind.
  destruct (_match_project_to_requirements project requirements w)
    as [w1 [[[] reason]|e]]; [apply IH..|done].
Qed.

Lemma for_exp_in_app requirements before after rp rwe w :
  for_exp_in requirements (before ++ after) rp rwe w
  = match for_exp_in requirements before rp rwe w with
    | (w', Returned (rp', rwe')) => for_exp_in requirements after rp' rwe' w'
    | (w', Raised e) => (w', Raised e)
    end.
Proof.
  revert rp rwe w. induction before as [|exp before IH]; intros rp rwe w; [done|].
  cbn [app for_exp_in]. rewrite !run_bind.
  destruct (for_project_in exp requirements (WorkExperience.projects exp) rp rwe w)
    as [w1 [[rp1 rwe1]|e]]; [apply IH|done].
Qed.

(** C8. When the project chain raises on the call for a project, the
    calls before it having returned, [generate_resume] ends there: it
    raises the same exception and leaves the world as the failed call left
    it, so no call follows the failed one and no resume is returned. *)
Theorem project_match_failure_propagates
    developer job_offer w0 w1 relevant_skills relevant_education
    before exp after earlier project later w2 rp0 rwe0 w3 rp rwe w4 e :
  _match_developer_background developer
    (JobRequirements.experience (JobOffer.requirements job_offer))
    (JobOffer.requirements job_offer) w0
  = (w1, Returned (relevant_skills, relevant_education)) →
  Developer.work_experiences developer = before ++ exp :: after →
  WorkExperience.projects exp = earlier ++ project :: later →
  for_exp_in (JobOffer.requirements job_offer) before [] [] w1
  = (w2, Returned (rp0, rwe0)) →
  for_project_in exp (JobOffer.requirements job_offer) earlier rp0 rwe0 w2
  = (w3, Returned (rp, rwe)) →
  project_chain_invoke (project_dict_of project)
    (project_requirements_dict_of (JobOffer.requirements job_offer)) w3
  = (w4, Raised e) →
  generate_resume developer job_offer w0 = (w4, Raised e).
Proof.
  intros Hbackground Hexps Hprojects Hbefore Hearlier Hfails.
  unfold generate_resume.
  rewrite (run_bind_returned _ _ _ _ _ Hbackground).
  apply run_bind_raised.
  rewrite Hexps, for_exp_in_app, Hbefore.
  cbn [for_exp_in]. apply run_bind_raised.
  rewrite Hprojects, for_project_in_app, Hearlier.
  cbn [for_project_in]. apply run_bind_raised.
  by rewrite match_project_to_requirements_invoke, Hfails.
Qed.

(** The inner loop, given the verdicts of the chain on the projects:
    [exp] is appended once per matching verdict. *)
Lemma for_project_in_verdicts exp requirements projects rp rwe w w' verdicts :
  ask_projects requirements projects w = (w', Returned verdicts) →
  ∃ rp',
    for_project_in exp requirements projects rp rwe w
    = (w', Returned (rp', rwe ++ replicate (count_matches verdicts) exp)).
Proof.
  revert rp rwe w verdicts.
  induction projects as [|project projects IH]; intros rp rwe w verdicts Hask.
  - cbn [ask_projects] in Hask. rewrite run_ret in Hask. injection Hask as <- <-.
    exists rp. cbn [for_project_in]. by rewrite run_ret, app_nil_r.
  - cbn [ask_projects] in Hask.
    apply bind_returned_inv in Hask as (w1 & [is_match reason] & Hproject & Hask).
    apply bind_returned_inv in Hask as (w2 & vs & Hrest & Hret).
    rewrite run_ret in Hret. injection Hret as <- <-.
    cbn [for_project_in]. rewrite (run_bind_returned _ _ _ _ _ Hproject).
    destruct is_match.
    + destruct (IH (rp ++ [(project, reason)]) (rwe ++ [exp]) _ _ Hrest) as (rp' & ->).
      exists rp'. unfold count_matches. rewrite filter_cons_True by done.
      cbn [length replicate]. by rewrite <- app_assoc.
    + destruct (IH rp rwe _ _ Hrest) as (rp' & ->).
      exists rp'. unfold count_matches. by rewrite filter_cons_False by done.
Qed.

Lemma for_exp_in_verdicts requirements work_experiences rp rwe w w' verdicts :
  ask_experiences requirements work_experiences w = (w', Returned verdicts) →
  ∃ rp',
    for_exp_in requirements work_experiences rp rwe w
    = (w', Returned (rp', rwe ++ experience_entries work_experiences verdicts)).
Proof.
  revert rp rwe w verdicts.
  induction work_experiences as [|exp exps IH]; intros rp rwe w verdicts Hask.
  - cbn [ask_experiences] in Hask. rewrite run_ret in Hask. injection Hask as <- <-.
    exists rp. cbn [for_exp_in]. by rewrite run_ret, app_nil_r.
  - cbn [ask_experiences] in Hask.
    apply bind_returned_inv in Hask as (w1 & vs & Hprojects & Hask).
    apply bind_returned_inv in Hask as (w2 & vss & Hrest & Hret).
    rewrite run_ret in Hret. injection Hret as <- <-.
    destruct (for_project_in_verdicts exp _ _ rp rwe _ _ _ Hprojects) as (rp1 & Hinner).
    destruct (IH rp1 (rwe ++ replicate (count_matches vs) exp) _ _ Hrest) as (rp' & Houter).
    exists rp'. cbn [for_exp_in]. rewrite (run_bind_returned _ _ _ _ _ Hinner).
    rewrite Houter. unfold experience_entries. cbn [zip_with concat].
    by rewrite <- app_assoc.
Qed.

(** The entries for the work experience at one position stand together in
    the list of all entries. *)
Lemma experience_entries_lookup work_experiences verdicts (i : nat) exp vs :
  work_experiences !! i = Some exp →
  verdicts !! i = Some vs →
  ∃ front back,
    experience_entries work_experiences verdicts
    = front ++ replicate (count_matches vs) exp ++ back.
Proof.
  intros (exps1 & exps2 & -> & ->)%list_elem_of_split_length.
  intros (vss1 & vss2 & -> & Hlength)%list_elem_of_split_length.
  unfold experience_entries. rewrite zip_with_app by done.
  cbn [zip_with]. rewrite concat_app, concat_cons. eauto.
Qed.

(** C9. [relevant_experience] has one entry per matched project: with the
    verdicts of the project chain on the projects of each work experience,
    the list is, mission after mission, the work experience repeated once
    per matching verdict; a work experience with [n] matching projects
    stands there [n] times in a row, and nothing removes the repetitions. *)
Theorem relevant_experience_per_matched_project
    developer job_offer w0 w1 relevant_skills relevant_education w2 verdicts :
  _match_developer_background developer
    (JobRequirements.experience (JobOffer.requirements job_offer))
    (JobOffer.requirements job_offer) w0
  = (w1, Returned (relevant_skills, relevant_education)) →
  ask_experiences (JobOffer.requirements job_offer)
    (Developer.work_experiences developer) w1
  = (w2, Returned verdicts) →
  ∃ r,
    generate_resume developer job_offer w0 = (w2, Returned r)
    ∧ Resume.relevant_experience r
      = experience_entries (Developer.work_experiences developer) verdicts
    ∧ ∀ (i : nat) exp vs,
        Developer.work_experiences developer !! i = Some exp →
        verdicts !! i = Some vs →
        ∃ front back,
          Resume.relevant_experience r
          = front ++ replicate (count_matches vs) exp ++ back.
Proof.
  intros Hbackground Hask.
  destruct (for_exp_in_verdicts _ _ [] [] _ _ _ Hask) as (rp & Hloop).
  unfold generate_resume.
  rewrite (run_bind_returned _ _ _ _ _ Hbackground).
  rewrite (run_bind_returned _ _ _ _ _ Hloop).
  rewrite run_ret. eexists. split; [reflexivity|].
  cbn [Resume.relevant_experience]. rewrite app_nil_l. split; [done|].
  intros i exp vs. apply experience_entries_lookup.
Qed.

End ProjectLoop.

Lemma project_match_failure_propagates_witness :
  generate_resume (H := scripted) test_developer test_job_offer test_script_failing
  = (test_script_failed, Raised "rate limit exceeded").
Proof.
  eapply (project_match_failure_propagates (H := scripted)
            test_developer test_job_offer test_script_failing _ _ _
            [] test_work_experience1 [test_work_experience2]
            [test_project1] test_project2 []).
  - vm_compute. reflexivity.
  - reflexivity.
  - reflexivity.
  - vm_compute. reflexivity.
  - vm_compute. reflexivity.
  - vm_compute. reflexivity.
Defined.

Lemma relevant_experience_per_matched_project_witness :
  ∃ r,
    generate_resume (H := scripted) test_developer test_job_offer test_script
    = (test_script_answered, Returned r)
    ∧ length (WorkExperience.projects test_work_experience1) = 2
    ∧ Resume.relevant_experience r = [test_work_experience1; test_work_experience1]
    ∧ ∃ front back,
        Resume.relevant_experience r = front ++ replicate 2 test_work_experience1 ++ back.
Proof.
  destruct (relevant_experience_per_matched_project (H := scripted)
              test_developer test_job_offer test_script test_script
              (Resume.relevant_skills test_resume) (Resume.relevant_education test_resume)
              test_script_answered
              [[(true, "uses React.js and TypeScript"); (true, "uses Python and AWS")];
               [(false, "no required technology")]])
    as (r & Hrun & Hentries & Hrow).
  - vm_compute. reflexivity.
  - vm_compute. reflexivity.
  - exists r. split; [exact Hrun|]. split; [reflexivity|]. split; [exact Hentries|].
    exact (Hrow 0 test_work_experience1 _ eq_refl eq_refl).
Defined.

(** ** The object store: what a call leaves alone *)

Section Frame.
Context `{Platform}.
Import Store.

Lemma preserves_ret {A : Type} h0 (a : A) (Q : A → state → Prop) :
  (∀ st, Q a st) → preserves h0 (mret a) Q.
Proof. intros HQ st Hst. by split. Qed.

Lemma preserves_raise {A : Type} h0 (e : Exn) (Q : A → state → Prop) :
  preserves h0 (raise e) Q.
Proof. by intros st Hst. Qed.

Lemma preserves_bind {A B : Type} h0 (m : HM A) (k : A → HM B) (G : A → Prop) Q :
  preserves h0 m (λ a _, G a) →
  (∀ a, G a → preserves h0 (k a) Q) →
  preserves h0 (m ≫= k) Q.
Proof.
  intros Hm Hk st Hst. unfold mbind, HM_bind.
  specialize (Hm st Hst). destruct (m st) as [st1 [a|e]]; [|done].
  destruct Hm as [Hst1 Ga]. by apply Hk.
Qed.

Lemma preserves_weaken {A : Type} h0 (m : HM A) (Q Q' : A → state → Prop) :
  preserves h0 m Q → (∀ a st, Q a st → Q' a st) → preserves h0 m Q'.
Proof.
  intros Hm HQ st Hst. specialize (Hm st Hst).
  destruct (m st) as [st1 [a|e]]; [|done]. destruct Hm. auto.
Qed.

(** Reading changes nothing. *)
Lemma preserves_deref h0 v : preserves h0 (deref v) (λ _ _, True).
Proof.
  intros st Hst. unfold deref.
  destruct v; try done. by destruct (store st !! l).
Qed.

Lemma preserves_getattr h0 v name : preserves h0 (getattr v name) (λ _ _, True).
Proof.
  unfold getattr. eapply preserves_bind; [apply preserves_deref|].
  intros [class_name attributes|items|items] _; try apply preserves_raise.
  destruct (attributes !! name); [by apply preserves_ret | apply preserves_raise].
Qed.

Lemma preserves_list_items h0 v : preserves h0 (list_items v) (λ _ _, True).
Proof.
  unfold list_items. eapply preserves_bind; [apply preserves_deref|].
  intros [class_name attributes|items|items] _; try apply preserves_raise.
  by apply preserves_ret.
Qed.

Lemma preserves_as_str h0 v : preserves h0 (as_str v) (λ _ _, True).
Proof. destruct v; try apply preserves_raise. by apply preserves_ret. Qed.

Lemma preserves_as_int h0 v : preserves h0 (as_int v) (λ _ _, True).
Proof. destruct v; try apply preserves_raise. by apply preserves_ret. Qed.

Lemma preserves_as_date h0 v : preserves h0 (as_date v) (λ _ _, True).
Proof. destruct v; try apply preserves_raise. by apply preserves_ret. Qed.

Lemma preserves_get_str h0 v name : preserves h0 (get_str v name) (λ _ _, True).
Proof.
  unfold get_str. eapply preserves_bind; [apply preserves_getattr|].
  intros x _. apply preserves_as_str.
Qed.

Lemma preserves_get_int h0 v name : preserves h0 (get_int v name) (λ _ _, True).
Proof.
  unfold get_int. eapply preserves_bind; [apply preserves_getattr|].
  intros x _. apply preserves_as_int.
Qed.

Lemma preserves_get_date h0 v name : preserves h0 (get_date v name) (λ _ _, True).
Proof.
  unfold get_date. eapply preserves_bind; [apply preserves_getattr|].
  intros x _. apply preserves_as_date.
Qed.

Lemma preserves_get_list h0 v name : preserves h0 (get_list v name) (λ _ _, True).
Proof.
  unfold get_list. eapply preserves_bind; [apply preserves_getattr|].
  intros x _. apply preserves_list_items.
Qed.

Lemma preserves_for_each {A B : Type} h0 (f : A → HM B) (xs : list A) :
  (∀ x, preserves h0 (f x) (λ _ _, True)) →
  preserves h0 (for_each f xs) (λ _ _, True).
Proof.
  intros Hf. induction xs as [|x xs IH]; cbn [for_each]; [by apply preserves_ret|].
  eapply preserves_bind; [apply Hf|]. intros y _.
  eapply preserves_bind; [apply IH|]. intros ys _. by apply preserves_ret.
Qed.

Lemma preserves_keep_if {A : Type} h0 (f : A → HM bool) (xs : list A) :
  (∀ x, preserves h0 (f x) (λ _ _, True)) →
  preserves h0 (keep_if f xs) (λ _ _, True).
Proof.
  intros Hf. induction xs as [|x xs IH]; cbn [keep_if]; [by apply preserves_ret|].
  eapply preserves_bind; [apply Hf|]. intros keep _.
  eapply preserves_bind; [apply IH|]. intros kept _. by apply preserves_ret.
Qed.

Lemma preserves_get_str_list h0 v name :
  preserves h0 (get_str_list v name) (λ _ _, True).
Proof.
  unfold get_str_list. eapply preserves_bind; [apply preserves_get_list|].
  intros items _. apply preserves_for_each. intros x. apply preserves_as_str.
Qed.

(** The chains change the world, not the store. *)
Lemma preserves_invoke_project_chain h0 project_dict requirements_dict :
  preserves h0 (invoke_project_chain project_dict requirements_dict) (λ _ _, True).
Proof.
  intros st Hst. unfold invoke_project_chain.
  by destruct (project_chain_invoke project_dict requirements_dict (world st)) as [w [?|?]].
Qed.

Lemma preserves_invoke_background_chain h0 background_dict requirements_dict :
  preserves h0 (invoke_background_chain background_dict requirements_dict) (λ _ _, True).
Proof.
  intros st Hst. unfold invoke_background_chain.
  by destruct (background_chain_invoke background_dict requirements_dict (world st))
    as [w [?|?]].
Qed.

(** A new object is none of [h0], and allocating it changes none. *)
Lemma preserves_alloc h0 o :
  preserves h0 (alloc o)
    (λ v st, ∃ l, v = VRef l ∧ h0 !! l = None ∧ store st !! l = Some o).
Proof.
  intros st Hst. unfold alloc. cbn [store].
  assert (store st !! fresh (dom (store st)) = None) as Hnew.
  { apply not_elem_of_dom, is_fresh. }
  assert (h0 !! fresh (dom (store st)) = None) as Hnew0.
  { by eapply lookup_weaken_None. }
  split; [by apply insert_subseteq_r|].
  eexists. split; [done|]. split; [done|]. apply lookup_insert_eq.
Qed.

Lemma preserves_alloc_fresh h0 o : preserves h0 (alloc o) (λ v _, fresh_for h0 v).
Proof.
  eapply preserves_weaken; [apply preserves_alloc|].
  intros v st (l & -> & Hl & _). by exists l.
Qed.

(** Appending to a list that is none of [h0] changes none of [h0]. *)
Lemma preserves_list_append h0 v x :
  fresh_for h0 v → preserves h0 (list_append v x) (λ _ _, True).
Proof.
  intros (l & -> & Hl) st Hst. unfold list_append.
  destruct (store st !! l) as [[class_name attributes|items|items]|]; try done.
  cbn [store]. split; [by apply insert_subseteq_r | done].
Qed.

(** Stepping through a computation: [known] closes the calls of functions
    already shown to preserve. *)
Ltac frame_with known :=
  lazymatch goal with
  | |- preserves _ ((if _ then _ else _) ≫= _) _ =>
      eapply (preserves_bind _ _ _ (λ _, True));
        [frame_with known | intros ? ?; frame_with known]
  | |- preserves _ ((match _ with _ => _ end) ≫= _) _ =>
      eapply (preserves_bind _ _ _ (λ _, True));
        [frame_with known | intros ? ?; frame_with known]
  | |- preserves _ (_ ≫= _) _ =>
      eapply preserves_bind; [frame_with known | intros ? ?; frame_with known]
  | |- preserves _ (for_each _ _) _ =>
      apply preserves_for_each; intros ?; frame_with known
  | |- preserves _ (keep_if _ _) _ =>
      apply preserves_keep_if; intros ?; frame_with known
  | |- preserves _ (mret _) _ => apply preserves_ret; done
  | |- preserves _ (raise _) _ => apply preserves_raise
  | |- preserves _ (let '(_, _) := ?p in _) _ => destruct p; frame_with known
  | |- preserves _ (if ?b then _ else _) _ => destruct b; frame_with known
  | |- preserves _ (match ?x with _ => _ end) _ => destruct x; frame_with known
  | |- _ =>
      first
        [ apply preserves_getattr | apply preserves_get_str | apply preserves_get_int
        | apply preserves_get_date | apply preserves_get_list
        | apply preserves_get_str_list | apply preserves_list_items
        | apply preserves_as_str | apply preserves_as_int | apply preserves_as_date
        | apply preserves_invoke_project_chain
        | apply preserves_invoke_background_chain
        | apply preserves_alloc_fresh
        | apply preserves_list_append; assumption
        | known ]
  end.

Lemma preserves_match_project_to_requirements h0 project requirements :
  preserves h0 (_match_project_to_requirements project requirements) (λ _ _, True).
Proof. unfold _match_project_to_requirements. frame_with fail. Qed.

Lemma preserves_match_developer_background h0 developer experience_req requirements :
  preserves h0 (_match_developer_background developer experience_req requirements)
    (λ lists _, fresh_for h0 lists.1 ∧ fresh_for h0 lists.2).
Proof. unfold _match_developer_background. frame_with fail. Qed.

Lemma preserves_for_project_in
    h0 job_offer exp projects relevant_projects relevant_work_experiences :
  fresh_for h0 relevant_projects →
  fresh_for h0 relevant_work_experiences →
  preserves h0
    (for_project_in job_offer exp projects relevant_projects relevant_work_experiences)
    (λ _ _, True).
Proof.
  intros Hprojects Hexperiences.
  induction projects as [|project projects IH]; cbn [for_project_in].
  - by apply preserves_ret.
  - frame_with ltac:(first [apply preserves_match_project_to_requirements | apply IH]).
Qed.

Lemma preserves_for_exp_in
    h0 job_offer work_experiences relevant_projects relevant_work_experiences :
  fresh_for h0 relevant_projects →
  fresh_for h0 relevant_work_experiences →
  preserves h0
    (for_exp_in job_offer work_experiences relevant_projects relevant_work_experiences)
    (λ _ _, True).
Proof.
  intros Hprojects Hexperiences.
  induction work_experiences as [|exp work_experiences IH]; cbn [for_exp_in].
  - by apply preserves_ret.
  - frame_with ltac:(first [by apply preserves_for_project_in | apply IH]).
Qed.

Lemma preserves_for_achievement_in h0 job_offer achievements relevant_achievements :
  fresh_for h0 relevant_achievements →
  preserves h0 (for_achievement_in job_offer achievements relevant_achievements)
    (λ _ _, True).
Proof.
  intros Hachievements.
  induction achievements as [|achievement achievements IH]; cbn [for_achievement_in].
  - by apply preserves_ret.
  - frame_with ltac:(apply IH).
Qed.

Lemma preserves_name_is_required h0 job_offer required item :
  preserves h0 (name_is_required job_offer required item) (λ _ _, True).
Proof. unfold name_is_required. frame_with fail. Qed.

(** C10. [generate_resume] changes no object of the store it is called
    in, whether it returns or raises: every object there before is there
    after, with the same attributes and the same items; so no field of
    the developer or of the job offer is modified.  The resume it returns
    is a new object whose [developer] and [job_offer] attributes are the
    two arguments themselves, and whose six lists are new objects. *)
Theorem generate_resume_keeps_inputs developer job_offer st :
  match generate_resume developer job_offer st with
  | (st', Returned resume) =>
      store st ⊆ store st' ∧ is_resume_of (store st) developer job_offer resume st'
  | (st', Raised _) => store st ⊆ store st'
  end.
Proof.
  assert (∀ h0, preserves h0 (generate_resume developer job_offer)
                  (is_resume_of h0 developer job_offer)) as Hpreserves;
    [|by apply Hpreserves].
  intros h0. unfold generate_resume.
  frame_with ltac:(first
    [ apply preserves_match_developer_background
    | by apply preserves_for_exp_in
    | by apply preserves_for_achievement_in
    | apply preserves_name_is_required
    | idtac ]).
  eapply preserves_weaken; [apply preserves_alloc|].
  intros resume st' (l & -> & Hnew & Hstored).
  eexists l, _. do 3 (split; [done|]).
  split; [reflexivity|]. split; [reflexivity|].
  intros name Hname.
  repeat (apply elem_of_cons in Hname as [->|Hname]);
    [..|by apply elem_of_nil in Hname];
    (eexists; split; [reflexivity|]); cbn [fst snd] in *; destruct_and?; assumption.
Qed.

End Frame.

(** The test data are where [test_developer_object] and
    [test_job_offer_object] say, and [generate_resume] returns on them. *)
Example test_inputs_built :
  (test_inputs empty_state).2
  = Returned (test_developer_object, test_job_offer_object).
Proof. vm_compute. reflexivity. Qed.

Example test_run_returns :
  (Store.generate_resume (H := scripted) test_developer_object test_job_offer_object
     test_state).2
  = Returned test_resume_object.
Proof. vm_compute. reflexivity. Qed.

Lemma generate_resume_keeps_inputs_witness :
  ∃ st' resume,
    Store.generate_resume (H := scripted) test_developer_object test_job_offer_object
      test_state
    = (st', Returned resume)
    ∧ Store.store test_state ⊆ Store.store st'
    ∧ Store.is_resume_of (Store.store test_state)
        test_developer_object test_job_offer_object resume st'.
Proof.
  pose proof (generate_resume_keeps_inputs (H := scripted)
                test_developer_object test_job_offer_object test_state) as Hkeeps.
  pose proof test_run_returns as Hreturns.
  destruct (Store.generate_resume test_developer_object test_job_offer_object test_state)
    as [st' [resume|e]].
  - exists st', resume. split; [reflexivity | exact Hkeeps].
  - discriminate Hreturns.
Defined.

(** On the test data the resume object reads as [test_resume]: the same
    summary, the first mission twice, by reference to the one object of the
    developer's list, and the developer and the job offer themselves. *)
Example test_resume_in_store :
  let h :=
    Store.store
      (Store.generate_resume (H := scripted) test_developer_object test_job_offer_object
         test_state).1 in
  (attribute_in h test_resume_object "professional_summary",
   items_in h (attribute_in h test_developer_object "work_experiences"),
   items_in h (attribute_in h test_resume_object "relevant_experience"),
   attribute_in h test_resume_object "developer",
   attribute_in h test_resume_object "job_offer")
  = (Some (Store.VStr (Resume.professional_summary test_resume)),
     Some [Store.VRef 18%positive; Store.VRef 25%positive],
     Some [Store.VRef 18%positive; Store.VRef 18%positive],
     Some test_developer_object,
     Some test_job_offer_object).
Proof. vm_compute. reflexivity. Qed.



(** With the project chain failing on its second call, the run on the
    store ends as the run on values does: the same exception and the same
    script left. *)
Example test_failure_in_store :
  let run :=
    Store.generate_resume (H := scripted) test_developer_object test_job_offer_object
      test_state_failing in
  (Store.world run.1, run.2) = (test_script_failed, Raised "rate limit exceeded").
Proof. vm_compute. reflexivity. Qed.

(** * The rest of the pipeline: properties *)

(** ** Verdicts and entries *)

Lemma count_matches_cons (v : bool * string) (vs : list (bool * string)) :
  count_matches (v :: vs) = (if v.1 then 1 else 0) + count_matches vs.
Proof.
  unfold count_matches. destruct v as [[] reason].
  - by rewrite filter_cons_True.
  - by rewrite filter_cons_False.
Qed.

Lemma count_matches_le (vs : list (bool * string)) :
  (count_matches vs ≤ length vs)%nat.
Proof. apply length_filter. Qed.

Lemma experience_entries_cons exp exps vs vss :
  experience_entries (exp :: exps) (vs :: vss)
  = replicate (count_matches vs) exp ++ experience_entries exps vss.
Proof. reflexivity. Qed.

Lemma flat_map_replicate_length {A B : Type} (f : A → list B) (n : nat) (x : A) :
  length (flat_map f (replicate n x)) = n * length (f x).
Proof.
  induction n as [|n IH]; [done|].
  cbn [replicate flat_map]. rewrite length_app, IH. lia.
Qed.

Section Verdicts.
Context `{Platform}.

(** One verdict per project. *)
Lemma ask_projects_length requirements projects w w' verdicts :
  ask_projects requirements projects w = (w', Returned verdicts) →
  length verdicts = length projects.
Proof.
  revert w verdicts. induction projects as [|project projects IH]; intros w verdicts Hask.
  - cbn [ask_projects] in Hask. rewrite run_ret in Hask. by injection Hask as <- <-.
  - cbn [ask_projects] in Hask.
    apply bind_returned_inv in Hask as (w1 & v & _ & Hask).
    apply bind_returned_inv in Hask as (w2 & vs & Hrest & Hret).
    rewrite run_ret in Hret. injection Hret as <- <-.
    cbn [length]. f_equal. by eapply IH.
Qed.

Lemma ask_experiences_lengths requirements work_experiences w w' verdicts :
  ask_experiences requirements work_experiences w = (w', Returned verdicts) →
  Forall2 (λ exp vs, length vs = length (WorkExperience.projects exp))
    work_experiences verdicts.
Proof.
  revert w verdicts.
  induction work_experiences as [|exp exps IH]; intros w verdicts Hask.
  - cbn [ask_experiences] in Hask. rewrite run_ret in Hask. injection Hask as <- <-.
    constructor.
  - cbn [ask_experiences] in Hask.
    apply bind_returned_inv in Hask as (w1 & vs & Hprojects & Hask).
    apply bind_returned_inv in Hask as (w2 & vss & Hrest & Hret).
    rewrite run_ret in Hret. injection Hret as <- <-.
    constructor; [by eapply ask_projects_length | by eapply IH].
Qed.

(** A run of [generate_resume] in which the chains return: the resume, by
    the verdicts of the project chain. *)
Lemma generate_resume_by_verdicts
    developer job_offer w0 w1 relevant_skills relevant_education w2 verdicts :
  _match_developer_background developer
    (JobRequirements.experience (JobOffer.requirements job_offer))
    (JobOffer.requirements job_offer) w0
  = (w1, Returned (relevant_skills, relevant_education)) →
  ask_experiences (JobOffer.requirements job_offer)
    (Developer.work_experiences developer) w1
  = (w2, Returned verdicts) →
  ∃ r,
    generate_resume developer job_offer w0 = (w2, Returned r)
    ∧ Resume.developer r = developer
    ∧ Resume.relevant_experience r
      = experience_entries (Developer.work_experiences developer) verdicts.
Proof.
  intros Hbackground Hask.
  destruct (for_exp_in_verdicts _ _ [] [] _ _ _ Hask) as (rp & Hloop).
  unfold generate_resume.
  rewrite (run_bind_returned _ _ _ _ _ Hbackground).
  rewrite (run_bind_returned _ _ _ _ _ Hloop).
  rewrite run_ret. eexists. split; [reflexivity|]. split; [reflexivity|].
  cbn [Resume.relevant_experience]. by rewrite app_nil_l.
Qed.

End Verdicts.

Lemma projects_counted_entries work_experiences verdicts :
  Forall2 (λ exp vs, length vs = length (WorkExperience.projects exp))
    work_experiences verdicts →
  length (flat_map (λ exp, map (λ proj, proj) (WorkExperience.projects exp))
            (experience_entries work_experiences verdicts))
  = projects_counted work_experiences verdicts.
Proof.
  induction 1 as [|exp vs exps vss Hlength _ IH]; [done|].
  rewrite experience_entries_cons, flat_map_app, length_app, IH.
  rewrite flat_map_replicate_length, length_map.
  unfold projects_counted. cbn [zip_with sum_list_with]. done.
Qed.

Lemma le_times_bound (n p : nat) : (n ≤ p → n ≤ n * p)%nat.
Proof. destruct p; nia. Qed.

Lemma lt_times_bound (n p : nat) : (0 < n → 2 ≤ p → n < n * p)%nat.
Proof. nia. Qed.

Lemma projects_matched_le_counted work_experiences verdicts :
  Forall2 (λ exp vs, length vs = length (WorkExperience.projects exp))
    work_experiences verdicts →
  (projects_matched verdicts ≤ projects_counted work_experiences verdicts)%nat.
Proof.
  induction 1 as [|exp vs exps vss Hlength _ IH]; [done|].
  unfold projects_matched, projects_counted in *.
  cbn [fmap list_fmap zip_with sum_list_with]. unfold id in *.
  pose proof (count_matches_le vs) as Hle. rewrite Hlength in Hle.
  apply le_times_bound in Hle. lia.
Qed.

(** A work experience with a match and a second project is counted for
    more than its matches. *)
Lemma projects_matched_lt_counted work_experiences verdicts (i : nat) exp vs :
  Forall2 (λ exp vs, length vs = length (WorkExperience.projects exp))
    work_experiences verdicts →
  work_experiences !! i = Some exp →
  verdicts !! i = Some vs →
  (0 < count_matches vs)%nat →
  (2 ≤ length (WorkExperience.projects exp))%nat →
  (projects_matched verdicts < projects_counted work_experiences verdicts)%nat.
Proof.
  intros Hlengths. revert i.
  induction Hlengths as [|exp0 vs0 exps vss Hlength Hrest IH];
    intros i Hexp Hvs Hmatch Hprojects; [done|].
  unfold projects_matched, projects_counted in *.
  cbn [fmap list_fmap zip_with sum_list_with]. unfold id in *.
  destruct i as [|i].
  - injection Hexp as ->. injection Hvs as ->.
    pose proof (projects_matched_le_counted exps vss Hrest) as Hle.
    unfold projects_matched, projects_counted, id in Hle.
    pose proof (lt_times_bound _ _ Hmatch Hprojects). lia.
  - specialize (IH i Hexp Hvs Hmatch Hprojects).
    pose proof (count_matches_le vs0) as Hle. rewrite Hlength in Hle.
    apply le_times_bound in Hle. lia.
Qed.

(** ** The statistics tab *)

Section Statistics.
Context `{Platform}.

(** "Projects Match" counts, for every matching verdict, all the projects
    of the work experience the matched project belongs to; it is never
    below the number of matching verdicts. *)
Theorem projects_match_counts_whole_missions
    developer job_offer w0 w1 relevant_skills relevant_education w2 verdicts :
  _match_developer_background developer
    (JobRequirements.experience (JobOffer.requirements job_offer))
    (JobOffer.requirements job_offer) w0
  = (w1, Returned (relevant_skills, relevant_education)) →
  ask_experiences (JobOffer.requirements job_offer)
    (Developer.work_experiences developer) w1
  = (w2, Returned verdicts) →
  ∃ r,
    generate_resume developer job_offer w0 = (w2, Returned r)
    ∧ projects_match r = projects_counted (Developer.work_experiences developer) verdicts
    ∧ (projects_matched verdicts ≤ projects_match r)%nat.
Proof.
  intros Hbackground Hask.
  destruct (generate_resume_by_verdicts _ _ _ _ _ _ _ _ Hbackground Hask)
    as (r & Hrun & _ & Hentries).
  pose proof (ask_experiences_lengths _ _ _ _ _ Hask) as Hlengths.
  assert (projects_match r
          = projects_counted (Developer.work_experiences developer) verdicts) as Hcount.
  { unfold projects_match. rewrite Hentries. by apply projects_counted_entries. }
  exists r. split; [done|]. split; [done|].
  rewrite Hcount. by apply projects_matched_le_counted.
Qed.

(** When a work experience with two projects or more has a matching
    project, "Projects Match" is above the number of matching verdicts. *)
Theorem projects_match_overcounts
    developer job_offer w0 w1 relevant_skills relevant_education w2 verdicts
    (i : nat) exp vs :
  _match_developer_background developer
    (JobRequirements.experience (JobOffer.requirements job_offer))
    (JobOffer.requirements job_offer) w0
  = (w1, Returned (relevant_skills, relevant_education)) →
  ask_experiences (JobOffer.requirements job_offer)
    (Developer.work_experiences developer) w1
  = (w2, Returned verdicts) →
  Developer.work_experiences developer !! i = Some exp →
  verdicts !! i = Some vs →
  (0 < count_matches vs)%nat →
  (2 ≤ length (WorkExperience.projects exp))%nat →
  ∃ r,
    generate_resume developer job_offer w0 = (w2, Returned r)
    ∧ (projects_matched verdicts < projects_match r)%nat.
Proof.
  intros Hbackground Hask Hexp Hvs Hmatch Hprojects.
  destruct (generate_resume_by_verdicts _ _ _ _ _ _ _ _ Hbackground Hask)
    as (r & Hrun & _ & Hentries).
  pose proof (ask_experiences_lengths _ _ _ _ _ Hask) as Hlengths.
  exists r. split; [done|].
  unfold projects_match. rewrite Hentries, projects_counted_entries by done.
  by eapply projects_matched_lt_counted.
Qed.

(** "Requirements Match" reads held/required with held at most required
    when no two certifications of the developer have the same name. *)
Theorem requirements_match_bounded developer job_offer w w' r :
  NoDup (Certification.name <$> Developer.certifications developer) →
  generate_resume developer job_offer w = (w', Returned r) →
  ∃ held required : nat,
    requirements_match r job_offer
    = str_of_int (Z.of_nat held) +:+ "/" +:+ str_of_int (Z.of_nat required)
    ∧ required
      = length (JobRequirements.certifications (JobOffer.requirements job_offer))
    ∧ (held ≤ required)%nat.
Proof.
  intros Hdistinct Hrun.
  apply generate_resume_returned in Hrun
    as (_ & _ & _ & _ & _ & _ & _ & _ & _ & _ & _ & _ & Hcerts & _).
  eexists _, _. split; [reflexivity|]. split; [reflexivity|].
  rewrite Hcerts.
  rewrite (comprehension_filter _
             (λ cert, Certification.name cert
                        ∈ JobRequirements.certifications (JobOffer.requirements job_offer)))
    by (intros cert; apply list_contains_elem_of).
  set (kept := filter _ _).
  rewrite <- (length_fmap Certification.name kept).
  apply submseteq_length, NoDup_submseteq.
  - assert (Certification.name <$> kept
            `sublist_of` Certification.name <$> Developer.certifications developer)
      as Hsublist by apply fmap_sublist, sublist_filter.
    by eapply sublist_NoDup.
  - intros name (cert & -> & Hkept)%list_elem_of_fmap.
    by apply list_elem_of_filter in Hkept as [Hrequired _].
Qed.

(** A developer without work experience: [generate_resume] asks the
    background chain only, returns when it returns, and the resume has no
    experience and says 0 years. *)
Theorem no_work_experience_no_project_call
    developer job_offer w w1 relevant_skills relevant_education :
  Developer.work_experiences developer = [] →
  _match_developer_background developer
    (JobRequirements.experience (JobOffer.requirements job_offer))
    (JobOffer.requirements job_offer) w
  = (w1, Returned (relevant_skills, relevant_education)) →
  ∃ r,
    generate_resume developer job_offer w = (w1, Returned r)
    ∧ Resume.relevant_experience r = []
    ∧ is_substring "and 0+ years of relevant experience" (Resume.professional_summary r).
Proof.
  intros Hnone Hbackground.
  assert (ask_experiences (JobOffer.requirements job_offer)
            (Developer.work_experiences developer) w1 = (w1, Returned [])) as Hask.
  { by rewrite Hnone. }
  destruct (generate_resume_by_verdicts _ _ _ _ _ _ _ _ Hbackground Hask)
    as (r & Hrun & _ & Hentries).
  exists r. split; [done|]. split; [by rewrite Hentries, Hnone|].
  apply generate_resume_returned in Hrun
    as (_ & skills & education & _ & _ & _ & _ & _ & _ & _ & _ & _ & _ & _ & _ & ->).
  rewrite Hnone, app_assoc. apply join_substring.
Qed.

End Statistics.

(** ** Achievements, again *)

Lemma str_contains_empty (s : string) : str_contains "" s = true.
Proof. by destruct s. Qed.

Lemma comprehension_sublist {A : Type} (f : A → bool) (xs : list A) :
  List.filter f xs `sublist_of` xs.
Proof.
  rewrite (comprehension_filter f (λ x, f x = true)) by done.
  apply sublist_filter.
Qed.

Lemma comprehension_all {A : Type} (f : A → bool) (xs : list A) :
  (∀ x, f x = true) → List.filter f xs = xs.
Proof.
  intros Hall. induction xs as [|x xs IH]; [done|].
  simpl. by rewrite Hall, IH.
Qed.

Section AchievementsAgain.
Context `{Platform}.

(** The highlighted achievements are achievements of the developer in the
    developer's order, none of them twice unless it is twice in the
    developer's list. *)
Theorem highlighted_achievements_in_order developer job_offer w w' r :
  generate_resume developer job_offer w = (w', Returned r) →
  Resume.highlighted_achievements r `sublist_of` Developer.achievements developer.
Proof.
  intros Hrun.
  apply generate_resume_returned in Hrun
    as (_ & _ & _ & _ & _ & _ & _ & _ & _ & _ & _ & _ & _ & _ & -> & _).
  rewrite for_achievement_in_filter, app_nil_l. apply comprehension_sublist.
Qed.

(** A required skill with an empty name makes every achievement of the
    developer a highlighted one: the empty text occurs in every text. *)
Theorem empty_skill_highlights_everything developer job_offer w w' r :
  str_lower "" = "" →
  "" ∈ JobRequirements.hard_skills (JobOffer.requirements job_offer)
         ++ JobRequirements.soft_skills (JobOffer.requirements job_offer) →
  generate_resume developer job_offer w = (w', Returned r) →
  Resume.highlighted_achievements r = Developer.achievements developer.
Proof.
  intros Hlower Hempty Hrun.
  apply generate_resume_returned in Hrun
    as (_ & _ & _ & _ & _ & _ & _ & _ & _ & _ & _ & _ & _ & _ & -> & _).
  rewrite for_achievement_in_filter, app_nil_l. apply comprehension_all.
  intros achievement. unfold is_relevant. apply any_exists.
  exists "". split; [done|]. rewrite Hlower. apply str_contains_empty.
Qed.

End AchievementsAgain.

Lemma projects_match_counts_whole_missions_witness :
  ∃ r,
    generate_resume (H := scripted) test_developer test_job_offer test_script
    = (test_script_answered, Returned r)
    ∧ projects_match r = projects_counted (Developer.work_experiences test_developer)
                           test_verdicts
    ∧ (projects_matched test_verdicts ≤ projects_match r)%nat.
Proof.
  apply (projects_match_counts_whole_missions (H := scripted)
           test_developer test_job_offer test_script test_script
           (Resume.relevant_skills test_resume) (Resume.relevant_education test_resume)).
  - vm_compute. reflexivity.
  - vm_compute. reflexivity.
Defined.

(** On the test data two projects match, the developer has three, and
    "Projects Match" shows four. *)
Example projects_match_of_test_resume :
  (projects_matched test_verdicts,
   length (flat_map WorkExperience.projects (Developer.work_experiences test_developer)),
   projects_match test_resume)
  = (2, 3, 4).
Proof. reflexivity. Qed.

Lemma projects_match_overcounts_witness :
  ∃ r,
    generate_resume (H := scripted) test_developer test_job_offer test_script_first_only
    = (test_script_answered, Returned r)
    ∧ (projects_matched test_verdicts_first_only < projects_match r)%nat.
Proof.
  apply (projects_match_overcounts (H := scripted)
           test_developer test_job_offer test_script_first_only test_script_first_only
           (Resume.relevant_skills test_resume) (Resume.relevant_education test_resume)
           test_script_answered test_verdicts_first_only
           0 test_work_experience1
           [(true, "uses React.js and TypeScript"); (false, "no frontend work")]).
  - vm_compute. reflexivity.
  - vm_compute. reflexivity.
  - reflexivity.
  - reflexivity.
  - vm_compute. lia.
  - vm_compute. lia.
Defined.

Lemma requirements_match_bounded_witness :
  ∃ held required : nat,
    requirements_match test_resume test_job_offer
    = str_of_int (Z.of_nat held) +:+ "/" +:+ str_of_int (Z.of_nat required)
    ∧ required
      = length (JobRequirements.certifications (JobOffer.requirements test_job_offer))
    ∧ (held ≤ required)%nat.
Proof.
  apply (requirements_match_bounded (H := scripted)
           test_developer test_job_offer test_script test_script_answered test_resume).
  - apply (bool_decide_unpack _). vm_compute. exact I.
  - vm_compute. reflexivity.
Defined.

Lemma no_work_experience_no_project_call_witness :
  ∃ r,
    generate_resume (H := scripted) newcomer test_job_offer test_script
    = (test_script, Returned r)
    ∧ Resume.relevant_experience r = []
    ∧ is_substring "and 0+ years of relevant experience" (Resume.professional_summary r).
Proof.
  apply (no_work_experience_no_project_call (H := scripted)
           newcomer test_job_offer test_script test_script
           (Resume.relevant_skills test_resume) (Resume.relevant_education test_resume)).
  - reflexivity.
  - vm_compute. reflexivity.
Defined.

Lemma highlighted_achievements_in_order_witness :
  ∃ w' r,
    generate_resume (H := scripted) test_developer job_offer_team_lead test_script
    = (w', Returned r)
    ∧ Resume.highlighted_achievements r `sublist_of` Developer.achievements test_developer.
Proof.
  eexists _, _. split; [vm_compute; reflexivity|].
  apply (highlighted_achievements_in_order (H := scripted)
           test_developer job_offer_team_lead test_script test_script_answered).
  vm_compute. reflexivity.
Defined.

Lemma empty_skill_highlights_everything_witness :
  ∃ w' r,
    generate_resume (H := scripted) test_developer job_offer_with_empty_skill test_script
    = (w', Returned r)
    ∧ Resume.highlighted_achievements r = Developer.achievements test_developer.
Proof.
  eexists _, _. split; [vm_compute; reflexivity|].
  apply (empty_skill_highlights_everything (H := scripted)
           test_developer job_offer_with_empty_skill test_script test_script_answered).
  - reflexivity.
  - apply (bool_decide_unpack _). vm_compute. exact I.
  - vm_compute. reflexivity.
Defined.

(** ** The markdown chain *)

Section MarkdownProperties.
Context `{Writer}.




End MarkdownProperties.



(** * The forms: properties *)

Lemma str_split_length sep text :
  length (str_split sep text) = S (str_count sep text).
Proof.
  induction text as [|c rest IH]; [done|]. cbn [str_split str_count].
  destruct (Ascii.eqb c sep); cbn [length]; [by rewrite IH|].
  destruct (str_split sep rest) as [|item items] eqn:Hsplit; [done|].
  cbn [length] in *. lia.
Qed.

Lemma str_contains_comma_cons c s :
  str_contains "," (String c s) = false ↔ c ≠ ","%char ∧ str_contains "," s = false.
Proof.
  cbn [str_contains String.prefix].
  destruct (ascii_dec "," c) as [<-|Hc].
  - destruct s; split; [done | intros [? _]; done | done | intros [? _]; done].
  - split; [intros Hs; split; [congruence | done] | by intros [_ Hs]].
Qed.

Lemma eqb_comma c : c ≠ ","%char → Ascii.eqb c "," = false.
Proof. intros Hc. by apply Ascii.eqb_neq. Qed.

Lemma str_split_comma_free s :
  str_contains "," s = false → str_split "," s = [s].
Proof.
  induction s as [|c s IH]; [done|].
  intros [Hc Hs]%str_contains_comma_cons. cbn [str_split].
  by rewrite (eqb_comma _ Hc), (IH Hs).
Qed.

Lemma str_split_append s rest :
  str_contains "," s = false →
  str_split "," (s +:+ String "," rest) = s :: str_split "," rest.
Proof.
  induction s as [|c s IH]; [done|].
  intros [Hc Hs]%str_contains_comma_cons.
  rewrite append_cons. cbn [str_split].
  by rewrite (eqb_comma _ Hc), (IH Hs).
Qed.

Lemma str_split_items_comma_free text :
  Forall (λ item, str_contains "," item = false) (str_split "," text).
Proof.
  induction text as [|c rest IH]; [by repeat constructor|].
  cbn [str_split]. destruct (Ascii.eqb c ","%char) eqn:Hc; [by constructor|].
  apply Ascii.eqb_neq in Hc.
  destruct (str_split "," rest) as [|item items].
  { repeat constructor. by apply str_contains_comma_cons. }
  inversion_clear IH as [|? ? Hitem Hitems]. constructor; [|done].
  by apply str_contains_comma_cons.
Qed.

Lemma str_split_join_comma items :
  items ≠ [] →
  Forall (λ item, str_contains "," item = false) items →
  str_split "," (join "," items) = items.
Proof.
  intros Hitems Hfree. induction Hfree as [|item items Hitem Hfree IH]; [done|].
  destruct items as [|item' items].
  - by apply str_split_comma_free.
  - rewrite join_cons.
    change ("," +:+ join "," (item' :: items)) with (String "," (join "," (item' :: items))).
    rewrite str_split_append by done. f_equal. by apply IH.
Qed.

Lemma str_split_join_comma_space items :
  Forall (λ item, str_contains "," item = false) items →
  str_split "," (join ", " items)
  = match items with
    | [] => [""]
    | item :: items => item :: map (String " ") items
    end.
Proof.
  intros Hfree. induction Hfree as [|item items Hitem Hfree IH]; [done|].
  destruct items as [|item' items].
  - by apply str_split_comma_free.
  - rewrite join_cons.
    change (", " +:+ join ", " (item' :: items))
      with (String "," (String " " (join ", " (item' :: items)))).
    rewrite str_split_append by done. f_equal.
    cbn [str_split]. change (Ascii.eqb " "%char ","%char) with false. by rewrite IH.
Qed.

Lemma str_truthy_true s : str_truthy s = true ↔ s ≠ "".
Proof. by destruct s. Qed.

Lemma str_truthy_join_comma items :
  items ≠ [] → items ≠ [""] → str_truthy (join "," items) = true.
Proof.
  intros Hnil Hblank. destruct items as [|item [|item' items]]; [done| |].
  - by destruct item.
  - rewrite join_cons. by destruct item.
Qed.

Section FormsProperties.
Variable isspace : ascii → bool.

Lemma rstrip_cons_nonspace c s :
  isspace c = false → rstrip isspace (String c s) = String c (rstrip isspace s).
Proof.
  intros Hc. cbn [rstrip]. destruct (rstrip isspace s); [by rewrite Hc | done].
Qed.

Lemma rstrip_idemp s : rstrip isspace (rstrip isspace s) = rstrip isspace s.
Proof.
  induction s as [|c s IH]; [done|]. cbn [rstrip].
  destruct (rstrip isspace s) as [|c' kept] eqn:Hkept.
  - destruct (isspace c) eqn:Hc; [done|]. cbn [rstrip]. by rewrite Hc.
  - cbn [rstrip]. cbn [rstrip] in IH. by rewrite IH.
Qed.

Lemma lstrip_lstripped s : lstripped isspace (lstrip isspace s).
Proof.
  induction s as [|c s IH]; [done|]. cbn [lstrip].
  by destruct (isspace c) eqn:Hc.
Qed.

Lemma lstripped_lstrip s : lstripped isspace s → lstrip isspace s = s.
Proof. destruct s as [|c s]; [done|]. cbn [lstripped lstrip]. by intros ->. Qed.

Lemma rstrip_lstripped s : lstripped isspace s → lstripped isspace (rstrip isspace s).
Proof.
  destruct s as [|c s]; [done|]. cbn [lstripped]. intros Hc.
  by rewrite rstrip_cons_nonspace.
Qed.

Lemma strip_idemp s : strip isspace (strip isspace s) = strip isspace s.
Proof.
  unfold strip.
  rewrite (lstripped_lstrip (rstrip isspace (lstrip isspace s)))
    by apply rstrip_lstripped, lstrip_lstripped.
  apply rstrip_idemp.
Qed.

Lemma strip_space_cons c s :
  isspace c = true → strip isspace (String c s) = strip isspace s.
Proof. intros Hc. unfold strip. cbn [lstrip]. by rewrite Hc. Qed.

Lemma lstrip_comma_free s :
  str_contains "," s = false → str_contains "," (lstrip isspace s) = false.
Proof.
  induction s as [|c s IH]; [done|]. intros Hs. cbn [lstrip].
  destruct (isspace c); [|done]. apply IH. by apply str_contains_comma_cons in Hs as [_ ?].
Qed.

Lemma rstrip_comma_free s :
  str_contains "," s = false → str_contains "," (rstrip isspace s) = false.
Proof.
  induction s as [|c s IH]; [done|].
  intros [Hc Hs]%str_contains_comma_cons. cbn [rstrip].
  specialize (IH Hs). destruct (rstrip isspace s) as [|c' kept].
  - destruct (isspace c); [done|]. by apply str_contains_comma_cons.
  - by apply str_contains_comma_cons.
Qed.

Lemma strip_comma_free s :
  str_contains "," s = false → str_contains "," (strip isspace s) = false.
Proof. intros Hs. by apply rstrip_comma_free, lstrip_comma_free. Qed.

Lemma map_strip_fixed items :
  Forall (λ item, strip isspace item = item) items → map (strip isspace) items = items.
Proof. induction 1 as [|item items Hitem _ IH]; [done|]. cbn [map]. by rewrite Hitem, IH. Qed.

Lemma cleanup_list_stripped_items text :
  Forall (λ item, str_contains "," item = false ∧ strip isspace item = item)
    (cleanup_list isspace text).
Proof.
  unfold cleanup_list. destruct (str_truthy text); [|constructor].
  apply Forall_fmap. eapply Forall_impl; [apply str_split_items_comma_free|].
  intros item Hitem. split; [by apply strip_comma_free | apply strip_idemp].
Qed.

Lemma cleanup_list_join items :
  items ≠ [""] →
  Forall (λ item, str_contains "," item = false ∧ strip isspace item = item) items →
  cleanup_list isspace (join "," items) = items.
Proof.
  intros Hblank Hitems. destruct (decide (items = [])) as [->|Hnil]; [done|].
  unfold cleanup_list. rewrite str_truthy_join_comma by done.
  rewrite str_split_join_comma by (done || by eapply Forall_impl; [done|intros ? []]).
  apply map_strip_fixed. by eapply Forall_impl; [done|intros ? []].
Qed.

Lemma job_offer_list_form_items text :
  Forall (form_item isspace) (job_offer_list isspace text).
Proof.
  unfold job_offer_list.
  induction (str_split_items_comma_free text) as [|s pieces Hs _ IH]; [constructor|].
  cbn [flat_map]. destruct (str_truthy (strip isspace s)) eqn:Htruthy; [|done].
  constructor; [|done]. split; [by apply str_truthy_true|].
  split; [by apply strip_comma_free | apply strip_idemp].
Qed.

Lemma job_offer_list_pieces pieces :
  Forall (λ s, form_item isspace (strip isspace s)) pieces →
  flat_map (λ s, if str_truthy (strip isspace s) then [strip isspace s] else []) pieces
  = map (strip isspace) pieces.
Proof.
  induction 1 as [|s pieces [Hs _] _ IH]; [done|]. cbn [flat_map map].
  apply str_truthy_true in Hs. by rewrite Hs, IH.
Qed.

Lemma job_offer_list_join items :
  isspace " " = true →
  Forall (form_item isspace) items →
  job_offer_list isspace (join ", " items) = items.
Proof.
  intros Hspace Hitems. unfold job_offer_list.
  rewrite str_split_join_comma_space
    by (eapply Forall_impl; [done|by intros ? (_ & ? & _)]).
  destruct Hitems as [|item items (Hitem & _ & Hstrip) Hitems]; [done|].
  cbn [flat_map]. rewrite Hstrip. apply str_truthy_true in Hitem. rewrite Hitem.
  cbn [app]. f_equal.
  rewrite job_offer_list_pieces.
  - rewrite map_map. induction Hitems as [|item' items (_ & _ & Hstrip') _ IH]; [done|].
    cbn [map]. rewrite strip_space_cons by done. by rewrite Hstrip', IH.
  - apply Forall_fmap. eapply Forall_impl; [done|].
    intros item' Hitem'. unfold compose. rewrite strip_space_cons by done.
    destruct Hitem' as (? & ? & Hstrip'). rewrite Hstrip'. by repeat split.
Qed.

(** A list the profile page shows in a comma-separated field and reads
    back with [cleanup_list] is the same list, when no item has a comma or
    whitespace at its ends and the list is not the single empty string. *)
Theorem cleanup_list_round_trip (items : list string) :
  Forall (λ item, str_contains "," item = false) items →
  Forall (λ item, strip isspace item = item) items →
  items ≠ [""] →
  cleanup_list isspace (join "," items) = items.
Proof.
  intros Hfree Hstripped Hblank. apply cleanup_list_join; [done|].
  apply Forall_and. by split.
Qed.

(** What [cleanup_list] read from a field, shown in the field again and
    read again, is the same list, unless it is the single empty string. *)
Theorem cleanup_list_resubmitted (text : string) :
  cleanup_list isspace text ≠ [""] →
  cleanup_list isspace (join "," (cleanup_list isspace text)) = cleanup_list isspace text.
Proof.
  intros Hblank. apply cleanup_list_join; [done | apply cleanup_list_stripped_items].
Qed.

(** [cleanup_list] keeps empty items: a text that is not empty gives one
    item more than it has commas. *)
Theorem cleanup_list_length (text : string) :
  text ≠ "" →
  length (cleanup_list isspace text) = S (str_count "," text).
Proof.
  intros Htext%str_truthy_true. unfold cleanup_list. rewrite Htext.
  by rewrite length_map, str_split_length.
Qed.

(** The lists of the job offer page never hold an empty item, an item with
    a comma, or an item with whitespace at its ends. *)
Theorem job_offer_list_items (text : string) (item : string) :
  item ∈ job_offer_list isspace text →
  item ≠ "" ∧ str_contains "," item = false ∧ strip isspace item = item.
Proof.
  intros Hitem.
  exact (proj1 (Forall_forall _ _) (job_offer_list_form_items text) item Hitem).
Qed.

(** A list the job offer page shows in a field, joined by a comma and a
    space, and reads back is the same list, when every item is not empty
    and has no comma and no whitespace at its ends. *)
Theorem job_offer_list_round_trip (items : list string) :
  isspace " " = true →
  Forall (λ item, item ≠ "") items →
  Forall (λ item, str_contains "," item = false) items →
  Forall (λ item, strip isspace item = item) items →
  job_offer_list isspace (join ", " items) = items.
Proof.
  intros Hspace Hfilled Hfree Hstripped. apply job_offer_list_join; [done|].
  unfold form_item. apply Forall_and. split; [done|]. apply Forall_and. by split.
Qed.

(** What the job offer page read from a field, shown in the field again
    and read again, is the same list, whatever the text was. *)
Theorem job_offer_list_resubmitted (text : string) :
  isspace " " = true →
  job_offer_list isspace (join ", " (job_offer_list isspace text))
  = job_offer_list isspace text.
Proof.
  intros Hspace. apply job_offer_list_join; [done | apply job_offer_list_form_items].
Qed.

End FormsProperties.

Lemma cleanup_list_round_trip_witness :
  cleanup_list ascii_isspace (join "," ["React.js"; "TypeScript"; "Redux"])
  = ["React.js"; "TypeScript"; "Redux"].
Proof.
  apply (cleanup_list_round_trip ascii_isspace).
  - by repeat constructor.
  - by repeat constructor.
  - discriminate.
Defined.

Lemma cleanup_list_resubmitted_witness :
  cleanup_list ascii_isspace
    (join "," (cleanup_list ascii_isspace " React.js,, Redux ,"))
  = cleanup_list ascii_isspace " React.js,, Redux ,".
Proof. apply (cleanup_list_resubmitted ascii_isspace). discriminate. Defined.

(** A text of whitespace is read as one empty item, and is no item at all
    once shown and read again. *)
Example cleanup_list_blank :
  cleanup_list ascii_isspace " " = [""]
  ∧ cleanup_list ascii_isspace (join "," (cleanup_list ascii_isspace " ")) = [].
Proof. by split. Qed.

Lemma cleanup_list_length_witness :
  length (cleanup_list ascii_isspace "React.js,, Redux,")
  = S (str_count "," "React.js,, Redux,").
Proof. apply (cleanup_list_length ascii_isspace). discriminate. Defined.

Lemma job_offer_list_items_witness :
  "Redux" ∈ job_offer_list ascii_isspace " React.js,, Redux ,"
  ∧ "Redux" ≠ ""
  ∧ str_contains "," "Redux" = false
  ∧ strip ascii_isspace "Redux" = "Redux".
Proof.
  assert ("Redux" ∈ job_offer_list ascii_isspace " React.js,, Redux ,") as Hitem.
  { vm_compute. right. left. }
  split; [exact Hitem|].
  exact (job_offer_list_items ascii_isspace " React.js,, Redux ," "Redux" Hitem).
Defined.

Lemma job_offer_list_round_trip_witness :
  job_offer_list ascii_isspace (join ", " ["React.js"; "Team Leadership"])
  = ["React.js"; "Team Leadership"].
Proof.
  apply (job_offer_list_round_trip ascii_isspace).
  - reflexivity.
  - by repeat constructor.
  - by repeat constructor.
  - by repeat constructor.
Defined.

Lemma job_offer_list_resubmitted_witness :
  job_offer_list ascii_isspace
    (join ", " (job_offer_list ascii_isspace " React.js,, Team Leadership ,"))
  = job_offer_list ascii_isspace " React.js,, Team Leadership ,".
Proof. apply (job_offer_list_resubmitted ascii_isspace). reflexivity. Defined.

(** * [WorkExperience.from_text]: properties *)

Section ReadingProperties.
Context `{Reader}.

Lemma for_experience_in_returns experiences work_experiences w :
  Forall (λ experience, dates_parse experience = true) experiences →
  ∃ added,
    for_experience_in experiences work_experiences w
    = (w, Returned (work_experiences ++ added))
    ∧ Forall2 parsed_as experiences added.
Proof.
  intros Hdates. revert work_experiences.
  induction Hdates as [|experience rest Hhere _ IH]; intros work_experiences.
  - exists []. by rewrite app_nil_r.
  - cbn [for_experience_in]. unfold parse_date at 1 2. rewrite run_bind.
    unfold dates_parse in Hhere.
    destruct (strptime_date (MissionModel.start_date _) _) as [start_date|e] eqn:Hstart;
      [|done].
    rewrite run_bind.
    destruct (strptime_date (MissionModel.end_date _) _) as [end_date|e] eqn:Hend;
      [|done].
    edestruct IH as (added & -> & Hadded).
    eexists (_ :: added). split; [by rewrite <- app_assoc|].
    constructor; [|done]. by repeat split.
Qed.

Lemma for_experience_in_raises experiences work_experiences w :
  Exists (λ experience, dates_parse experience = false) experiences →
  ∃ e, for_experience_in experiences work_experiences w = (w, Raised e).
Proof.
  intros Hbad. revert work_experiences.
  induction experiences as [|experience rest IH]; intros work_experiences;
    [by apply Exists_nil in Hbad|].
  cbn [for_experience_in]. unfold parse_date at 1 2. rewrite run_bind.
  unfold dates_parse in Hbad.
  destruct (strptime_date (MissionModel.start_date _) _) as [start_date|e] eqn:Hstart;
    [|by exists e].
  rewrite run_bind.
  destruct (strptime_date (MissionModel.end_date _) _) as [end_date|e] eqn:Hend;
    [|by exists e].
  apply Exists_cons in Hbad as [Hhere|Hlater].
  - by rewrite Hstart, Hend in Hhere.
  - by apply IH.
Qed.

(** One date of the reply that cannot be parsed loses every work
    experience of the reply: [from_text] raises, after the chain has
    answered. *)
Theorem from_text_all_or_nothing text w w' response experience :
  work_experiences_chain_invoke text w = (w', Returned response) →
  experience ∈ WorkExperienceListModel.work_experiences response →
  dates_parse experience = false →
  ∃ e, from_text text w = (w', Raised e).
Proof.
  intros Hinvoke Hexperience Hdates. unfold from_text.
  rewrite (run_bind_returned _ _ _ _ _ Hinvoke).
  apply for_experience_in_raises, Exists_exists. by exists experience.
Qed.

(** When every date of the reply can be parsed, [from_text] returns one
    work experience per experience of the reply, in the order of the
    reply, with the dates parsed and the other fields copied. *)
Theorem from_text_returns text w w' response :
  work_experiences_chain_invoke text w = (w', Returned response) →
  Forall (λ experience, dates_parse experience = true)
    (WorkExperienceListModel.work_experiences response) →
  ∃ work_experiences,
    from_text text w = (w', Returned work_experiences)
    ∧ Forall2 parsed_as (WorkExperienceListModel.work_experiences response) work_experiences.
Proof.
  intros Hinvoke Hdates. unfold from_text.
  rewrite (run_bind_returned _ _ _ _ _ Hinvoke).
  destruct (for_experience_in_returns _ [] w' Hdates) as (added & Hrun & Hadded).
  by exists added.
Qed.

(** The main page stores the work experiences [from_text] returns in the
    developer.  The resume page then shows as "Current Role" the job
    title of the last experience of the reply, and raises [IndexError]
    when the reply has no experience. *)
Theorem current_role_of_parsed_profile developer text w w' response :
  work_experiences_chain_invoke text w = (w', Returned response) →
  Forall (λ experience, dates_parse experience = true)
    (WorkExperienceListModel.work_experiences response) →
  ∃ work_experiences,
    from_text text w = (w', Returned work_experiences)
    ∧ current_role (with_work_experiences developer work_experiences)
      = match last (WorkExperienceListModel.work_experiences response) with
        | Some experience =>
            Returned (MissionModel.job_title (WorkExperienceModel.mission experience))
        | None => Raised "IndexError"
        end.
Proof.
  intros Hinvoke Hdates. unfold from_text.
  rewrite (run_bind_returned _ _ _ _ _ Hinvoke).
  destruct (for_experience_in_returns _ [] w' Hdates) as (added & Hrun & Hadded).
  exists added. split; [done|].
  unfold current_role. cbn [with_work_experiences Developer.work_experiences].
  destruct (Forall2_last _ _ _ Hadded) as [experience exp (Htitle & _)|]; [|done].
  by rewrite Htitle.
Qed.

End ReadingProperties.

Lemma current_role_of_parsed_profile_witness :
  ∃ work_experiences,
    @from_text scripted (scripted_reader test_reply_dated) "resume" test_script
    = (test_script, Returned work_experiences)
    ∧ current_role (with_work_experiences newcomer work_experiences)
      = Returned "Senior Frontend Developer".
Proof.
  apply (@current_role_of_parsed_profile scripted (scripted_reader test_reply_dated)
           newcomer "resume" test_script test_script test_reply_dated).
  - reflexivity.
  - repeat constructor.
Defined.

Lemma from_text_all_or_nothing_witness :
  ∃ e,
    @from_text scripted (scripted_reader test_reply_present) "resume" test_script
    = (test_script, Raised e).
Proof.
  apply (@from_text_all_or_nothing scripted (scripted_reader test_reply_present)
           "resume" test_script test_script test_reply_present
           test_experience_model_present).
  - reflexivity.
  - right. left.
  - vm_compute. reflexivity.
Defined.

Lemma from_text_returns_witness :
  ∃ work_experiences,
    @from_text scripted (scripted_reader test_reply_dated) "resume" test_script
    = (test_script, Returned work_experiences)
    ∧ Forall2 (@parsed_as scripted (scripted_reader test_reply_dated))
        (WorkExperienceListModel.work_experiences test_reply_dated) work_experiences.
Proof.
  apply (@from_text_returns scripted (scripted_reader test_reply_dated)
           "resume" test_script test_script test_reply_dated).
  - reflexivity.
  - repeat constructor.
Defined.

(** The dates of the test mission come back from their ISO form. *)
Example from_text_of_test_mission :
  (@from_text scripted (scripted_reader test_reply_dated) "resume" test_script).2
  = Returned [ {| WorkExperience.mission := WorkExperience.mission test_work_experience1;
                  WorkExperience.projects := [] |} ].
Proof. vm_compute. reflexivity. Qed.

(** * The object store: a mission that is not a [Mission] *)

Section ReadOnly.
Context `{Platform}.
Import Store.

Lemma reads_ret {A : Type} (a : A) : reads (mret a).
Proof. by intros st. Qed.

Lemma reads_raise {A : Type} (e : Exn) : reads (raise (A := A) e).
Proof. by intros st. Qed.

Lemma reads_bind {A B : Type} (m : HM A) (k : A → HM B) :
  reads m → (∀ a, reads (k a)) → reads (m ≫= k).
Proof.
  intros Hm Hk st. unfold mbind, HM_bind. specialize (Hm st).
  destruct (m st) as [st1 [a|e]]; cbn [fst] in Hm; subst st1; [apply Hk | done].
Qed.

Lemma reads_deref v : reads (deref v).
Proof. intros st. unfold deref. destruct v; try done. by destruct (store st !! _). Qed.

Lemma reads_getattr v name : reads (getattr v name).
Proof.
  apply reads_bind; [apply reads_deref|]. intros [class attributes|items|items];
    [|apply reads_raise..].
  destruct (attributes !! name); [apply reads_ret | apply reads_raise].
Qed.

Lemma reads_list_items v : reads (list_items v).
Proof.
  apply reads_bind; [apply reads_deref|].
  intros [class attributes|items|items]; (apply reads_ret || apply reads_raise).
Qed.

Lemma reads_as_str v : reads (as_str v).
Proof. destruct v; (apply reads_ret || apply reads_raise). Qed.

Lemma reads_as_int v : reads (as_int v).
Proof. destruct v; (apply reads_ret || apply reads_raise). Qed.

Lemma reads_as_date v : reads (as_date v).
Proof. destruct v; (apply reads_ret || apply reads_raise). Qed.

Lemma reads_get_str v name : reads (get_str v name).
Proof. apply reads_bind; [apply reads_getattr | intros; apply reads_as_str]. Qed.

Lemma reads_get_int v name : reads (get_int v name).
Proof. apply reads_bind; [apply reads_getattr | intros; apply reads_as_int]. Qed.

Lemma reads_get_date v name : reads (get_date v name).
Proof. apply reads_bind; [apply reads_getattr | intros; apply reads_as_date]. Qed.

Lemma reads_get_list v name : reads (get_list v name).
Proof. apply reads_bind; [apply reads_getattr | intros; apply reads_list_items]. Qed.

Lemma reads_for_each {A B : Type} (f : A → HM B) xs :
  (∀ x, reads (f x)) → reads (for_each f xs).
Proof.
  intros Hf. induction xs as [|x xs IH]; [apply reads_ret|]. cbn [for_each].
  apply reads_bind; [apply Hf|]. intros y.
  apply reads_bind; [apply IH|]. intros ys. apply reads_ret.
Qed.

Lemma reads_run {A : Type} (m : HM A) st (x : outcome A) :
  reads m → (m st).2 = x → m st = (st, x).
Proof. intros Hm <-. specialize (Hm st). by destruct (m st) as [st1 x]; cbn in *; subst. Qed.

Lemma raises_at_bind {A B : Type} st (m : HM A) (k : A → HM B) :
  reads m → (∀ a, m st = (st, Returned a) → raises_at st (k a)) → raises_at st (m ≫= k).
Proof.
  intros Hm Hk. unfold raises_at, mbind, HM_bind. specialize (Hm st).
  destruct (m st) as [st1 [a|e]] eqn:Hrun; cbn [fst] in Hm; subst st1.
  - by apply Hk.
  - by exists e.
Qed.

Lemma raises_at_first {A B : Type} st (m : HM A) (k : A → HM B) :
  raises_at st m → raises_at st (m ≫= k).
Proof. intros [e Hm]. exists e. unfold mbind, HM_bind. by rewrite Hm. Qed.

Lemma raises_at_for_each {A B : Type} st (f : A → HM B) xs x :
  (∀ x, reads (f x)) → x ∈ xs → raises_at st (f x) → raises_at st (for_each f xs).
Proof.
  intros Hf Hx Hraises. induction xs as [|x' xs IH]; [by apply elem_of_nil in Hx|].
  cbn [for_each]. apply elem_of_cons in Hx as [<-|Hx]; [by apply raises_at_first|].
  apply raises_at_bind; [apply Hf|]. intros y _. by apply raises_at_first, IH.
Qed.

Ltac read_on :=
  repeat first
    [ apply reads_getattr | apply reads_get_str | apply reads_get_int
    | apply reads_get_date | apply reads_get_list | apply reads_as_str
    | apply reads_ret
    | apply reads_for_each; intros
    | apply reads_bind; [|intros] ].

(** A work experience whose mission has no attribute [job_title], as the
    dict the profile page stores as mission has none, stops
    [generate_resume] before any chain is called: it raises, and the store
    and the world are as before. *)
Theorem mission_without_job_title_raises
    developer job_offer st work_experiences exp mission e :
  (get_list developer "work_experiences" st).2 = Returned work_experiences →
  exp ∈ work_experiences →
  (getattr exp "mission" st).2 = Returned mission →
  (getattr mission "job_title" st).2 = Raised e →
  ∃ e', generate_resume developer job_offer st = (st, Raised e').
Proof.
  intros Hlist Hexp Hmission Htitle.
  apply reads_run in Hlist; [|apply reads_get_list].
  apply reads_run in Hmission; [|apply reads_getattr].
  apply reads_run in Htitle; [|apply reads_getattr].
  change (raises_at st (generate_resume developer job_offer)). unfold generate_resume.
  do 3 (apply raises_at_bind; [apply reads_getattr|]; intros ? _).
  apply raises_at_first. unfold _match_developer_background.
  apply raises_at_bind; [apply reads_get_list|]; intros technical_skills _.
  apply raises_at_bind; [read_on|]; intros skills _.
  apply raises_at_bind; [apply reads_get_list|]; intros education_entries _.
  apply raises_at_bind; [read_on|]; intros education _.
  apply raises_at_bind; [apply reads_get_list|]; intros work_experiences' Hlist'.
  rewrite Hlist in Hlist'. injection Hlist' as <-.
  apply raises_at_first.
  apply (raises_at_for_each _ _ _ exp); [intros; read_on | done |].
  apply raises_at_bind; [apply reads_getattr|]; intros mission' Hmission'.
  rewrite Hmission in Hmission'. injection Hmission' as <-.
  apply raises_at_first. unfold get_str. apply raises_at_first. by exists e.
Qed.

End ReadOnly.

Lemma mission_without_job_title_raises_witness :
  ∃ e',
    Store.generate_resume (H := scripted) test_developer_object test_job_offer_object
      test_state_dict_mission
    = (test_state_dict_mission, Raised e').
Proof.
  apply (mission_without_job_title_raises (H := scripted)
           test_developer_object test_job_offer_object test_state_dict_mission
           [Store.VRef 18%positive; Store.VRef 25%positive]
           test_work_experience_object (Store.VRef test_mission_location)
           "AttributeError").
  - vm_compute. reflexivity.
  - left.
  - vm_compute. reflexivity.
  - vm_compute. reflexivity.
Defined.

(** With the mission it was built with, the same call returns; with the
    dict it raises [AttributeError]. *)
Example test_dict_mission_raises :
  (Store.generate_resume (H := scripted) test_developer_object test_job_offer_object
     test_state_dict_mission).2
  = Raised "AttributeError".
Proof. vm_compute. reflexivity. Qed.
